(** * build-uprn-service-config: workbook export and manifest versioning

    A shallow embedding of [.github/scripts/build-uprn-service-config.py]:
    the script exports every sheet of an Excel workbook to a CSV file and
    maintains a manifest JSON document whose [version] is bumped only when
    the sha256 of the workbook changes.

    Layout: Python values (strings, bytes, JSON documents), SHA-256,
    [pathlib] paths, a file system with an exception monad, the functions of
    the script in source order, the vocabulary of the specification, a
    concrete runtime with concrete runs, and then the properties.

    The model.
    - A [str] is a list of code points, compared as Python compares them.
    - [hashlib.sha256] is SHA-256 itself, computed on the bytes of the file.
    - A path is what [pathlib.PurePosixPath] makes of a string; the file
      system maps the POSIX form of a path to a regular file or a directory.
      There are no links and no working directory, and components are taken
      literally: the store is exact on plain paths, those without a [..]
      component, taken under one anchor, where two paths name the same file
      exactly when their POSIX forms agree.  The properties that tell files
      apart by their paths are stated for plain paths.
    - Opening a path at which there is nothing raises [FileNotFoundError],
      or [NotADirectoryError] when a regular file lies above it.
    - An exception leaves the file system as it is at the point of the
      raise; a sheet whose [to_csv] raises leaves in its file what had been
      written by then.
    - What comes from the Python runtime and from pandas and is not written
      in the repository (the Unicode table behind [str.isalnum], [int] on a
      string, UTF-8, [json.loads] and [json.dumps], the reading of a workbook
      and the CSV text of its sheets) is a parameter, the class [Runtime]. *)

From Stdlib Require Import ZArith NArith String Ascii Sorting Permutation Lia.
From Stdlib.Strings Require Import Byte.
From stdpp Require Import gmap list.

Set Default Proof Using "Type".
Set Warnings "-register-all".
Local Open Scope N_scope.

(** ** Python strings and bytes *)

(** A Python [str] is a sequence of Unicode code points; a [bytes] object is
    a sequence of octets. *)
Definition char := N.
Definition pystr := list char.
Definition bytes := list byte.

(** String literals of the script, written as Rocq strings. *)
Definition py (s : string) : pystr :=
  List.map N_of_ascii (list_ascii_of_string s).

(** [str.encode("ascii")] on text known to be ASCII, used for digests. *)
Definition ascii_bytes (s : pystr) : bytes :=
  List.map (fun c => match Byte.of_N c with Some b => b | None => x00 end) s.

(** [a == b] on [str]. *)
Definition str_eqb (a b : pystr) : bool := bool_decide (a = b).

(** [a <= b] on [str]: lexicographic on code points, a proper prefix first. *)
Fixpoint str_leb (a b : pystr) : bool :=
  match a, b with
  | [], _ => true
  | _ :: _, [] => false
  | x :: a', y :: b' =>
      if x <? y then true else if y <? x then false else str_leb a' b'
  end.

(** ** SHA-256 ([hashlib.sha256], FIPS 180-4) *)

Module Sha256.

Definition w32 (x : N) : N := N.land x 0xFFFFFFFF.
Definition add32 (x y : N) : N := w32 (x + y).
Definition rotr (n x : N) : N :=
  N.lor (N.shiftr x n) (w32 (N.shiftl x (32 - n))).
Definition not32 (x : N) : N := N.lxor x 0xFFFFFFFF.

Definition Ch (x y z : N) : N := N.lxor (N.land x y) (N.land (not32 x) z).
Definition Maj (x y z : N) : N :=
  N.lxor (N.lxor (N.land x y) (N.land x z)) (N.land y z).
Definition Sigma0 (x : N) : N := N.lxor (N.lxor (rotr 2 x) (rotr 13 x)) (rotr 22 x).
Definition Sigma1 (x : N) : N := N.lxor (N.lxor (rotr 6 x) (rotr 11 x)) (rotr 25 x).
Definition sigma0 (x : N) : N := N.lxor (N.lxor (rotr 7 x) (rotr 18 x)) (N.shiftr x 3).
Definition sigma1 (x : N) : N := N.lxor (N.lxor (rotr 17 x) (rotr 19 x)) (N.shiftr x 10).

(** The round constants and the initial chaining value are the first 32 bits
    of the fractional parts of the cube roots of the first 64 primes and of
    the square roots of the first 8. *)
Definition is_prime (n : N) : bool :=
  (2 <=? n) && forallb (fun d => negb (n mod N.of_nat d =? 0)) (seq 2 (N.to_nat (N.sqrt n) - 1)).

Definition first_primes (k : nat) : list N :=
  firstn k (List.filter is_prime (List.map N.of_nat (seq 2 310))).

(** Integer cube root, one bit at a time from bit 35 down. *)
Definition icbrt (n : N) : N :=
  fold_left (fun r b => let c := r + 2 ^ N.of_nat b in if c * c * c <=? n then c else r)
            (rev (seq 0 36)) 0.

Definition K : list N :=
  Eval vm_compute in List.map (fun p => w32 (icbrt (p * 2 ^ 96))) (first_primes 64).

(** The eight working variables / the chaining value. *)
Record regs := Regs { ra : N; rb : N; rc : N; rd : N; re : N; rf : N; rg : N; rh : N }.

Definition H0_words : list N :=
  Eval vm_compute in List.map (fun p => w32 (N.sqrt (p * 2 ^ 64))) (first_primes 8).

Definition H0 : regs :=
  let w i := nth i H0_words 0 in
  Regs (w 0%nat) (w 1%nat) (w 2%nat) (w 3%nat) (w 4%nat) (w 5%nat) (w 6%nat) (w 7%nat).

(** Big-endian encodings. *)
Definition be_bytes (n : nat) (x : N) : list N :=
  List.map (fun i => N.land (N.shiftr x (8 * N.of_nat i)) 0xFF) (rev (seq 0 n)).

Fixpoint be_word (bs : list N) (acc : N) : N :=
  match bs with
  | [] => acc
  | b :: bs' => be_word bs' (N.lor (N.shiftl acc 8) b)
  end.

(** Padding: a 1 bit, zeros up to 56 mod 64, then the bit length on 64 bits. *)
Definition pad (msg : list N) : list N :=
  let len := N.of_nat (length msg) in
  let zeros := N.to_nat ((119 - len mod 64) mod 64) in
  msg ++ [0x80] ++ repeat 0 zeros ++ be_bytes 8 (8 * len).

Fixpoint words_of (nwords : nat) (bs : list N) : list N :=
  match nwords with
  | O => []
  | S k => be_word (firstn 4 bs) 0 :: words_of k (skipn 4 bs)
  end.

(** Message schedule: [w] holds the words computed so far, newest first. *)
Fixpoint extend (n : nat) (w : list N) : list N :=
  match n with
  | O => w
  | S k =>
      let g i := nth i w 0 in
      extend k (add32 (add32 (sigma1 (g 1%nat)) (g 6%nat))
                      (add32 (sigma0 (g 14%nat)) (g 15%nat)) :: w)
  end.

Definition schedule (block : list N) : list N :=
  rev (extend 48 (rev (words_of 16 block))).

Definition round (s : regs) (kw : N * N) : regs :=
  let t1 := add32 (add32 (add32 (rh s) (Sigma1 (re s)))
                         (add32 (Ch (re s) (rf s) (rg s)) (fst kw))) (snd kw) in
  let t2 := add32 (Sigma0 (ra s)) (Maj (ra s) (rb s) (rc s)) in
  Regs (add32 t1 t2) (ra s) (rb s) (rc s) (add32 (rd s) t1) (re s) (rf s) (rg s).

Definition compress (h : regs) (block : list N) : regs :=
  let s := fold_left round (combine K (schedule block)) h in
  Regs (add32 (ra h) (ra s)) (add32 (rb h) (rb s)) (add32 (rc h) (rc s))
       (add32 (rd h) (rd s)) (add32 (re h) (re s)) (add32 (rf h) (rf s))
       (add32 (rg h) (rg s)) (add32 (rh h) (rh s)).

Fixpoint blocks (n : nat) (h : regs) (bs : list N) : regs :=
  match n with
  | O => h
  | S k => blocks k (compress h (firstn 64 bs)) (skipn 64 bs)
  end.

Definition digest_words (msg : bytes) : list N :=
  let p := pad (List.map Byte.to_N msg) in
  let h := blocks (length p / 64)%nat H0 p in
  [ra h; rb h; rc h; rd h; re h; rf h; rg h; rh h].

(** Lower-case hexadecimal, as [hexdigest] prints it. *)
Definition hex_digit (d : N) : char :=
  if d <? 10 then 48 + d else 87 + d.

Definition hex_word (w : N) : pystr :=
  List.map (fun i => hex_digit (N.land (N.shiftr w (4 * N.of_nat i)) 0xF))
           (rev (seq 0 8)).

Definition hexdigest (msg : bytes) : pystr :=
  concat (List.map hex_word (digest_words msg)).

End Sha256.

(** ** JSON documents

    The values [json.loads] produces and [json.dumps] accepts.  A [dict]
    keeps its keys in insertion order; [dict_get] finds a key's entry. *)

Inductive pyfloat :=
  | FFinite (m e : Z)   (* m * 2^e *)
  | FInf (negative : bool)
  | FNan.

Inductive json :=
  | JNull
  | JBool (b : bool)
  | JInt (n : Z)
  | JFloat (f : pyfloat)
  | JStr (s : pystr)
  | JArr (items : list json)
  | JObj (entries : list (pystr * json)).

Fixpoint dict_get (entries : list (pystr * json)) (key : pystr) : option json :=
  match entries with
  | [] => None
  | (k, v) :: rest => if str_eqb k key then Some v else dict_get rest key
  end.

(** ** Exceptions and results *)

Inductive exn :=
  | SystemExit (msg : pystr)
  | FileNotFoundError
  | FileExistsError
  | NotADirectoryError
  | IsADirectoryError
  | UnicodeDecodeError
  | UnicodeEncodeError
  | JSONDecodeError
  | AttributeError
  | TypeError
  | ValueError
  | OverflowError
  | ExcelReadError      (* raised by pd.ExcelFile *)
  | SheetExportError.   (* raised by xls.parse or DataFrame.to_csv *)

Inductive result (A : Type) :=
  | Ok (a : A)
  | Raise (e : exn).
Arguments Ok {A} a.
Arguments Raise {A} e.

Definition rbind {A B} (r : result A) (k : A -> result B) : result B :=
  match r with
  | Ok a => k a
  | Raise e => Raise e
  end.

(** ** [pathlib] paths (POSIX flavour)

    A path is its anchor (empty, [/] or [//]) and its components.  Parsing
    drops empty and [.] components and keeps [..], as [PurePosixPath] does. *)

Record path := Path { anchor : pystr; parts : list pystr }.

Definition SLASH : char := 47.
Definition DOT : char := 46.

Fixpoint split_slash (s : pystr) (cur : pystr) : list pystr :=
  match s with
  | [] => [rev cur]
  | c :: s' =>
      if c =? SLASH then rev cur :: split_slash s' [] else split_slash s' (c :: cur)
  end.

Definition proper_part (c : pystr) : bool :=
  negb (str_eqb c []) && negb (str_eqb c [DOT]).

Definition parse_anchor (s : pystr) : pystr :=
  match s with
  | 47 :: 47 :: 47 :: _ => [SLASH]
  | 47 :: 47 :: _ => [SLASH; SLASH]
  | 47 :: _ => [SLASH]
  | _ => []
  end.

(** [Path(s)] *)
Definition path_of_str (s : pystr) : path :=
  Path (parse_anchor s) (List.filter proper_part (split_slash s [])).

(** [p / q] *)
Definition joinpath (p q : path) : path :=
  match anchor q with
  | [] => Path (anchor p) (parts p ++ parts q)
  | _ => q
  end.

Definition path_div (p : path) (s : pystr) : path := joinpath p (path_of_str s).

Fixpoint join_slash (cs : list pystr) : pystr :=
  match cs with
  | [] => []
  | [c] => c
  | c :: rest => c ++ SLASH :: join_slash rest
  end.

(** [p.as_posix()] *)
Definition as_posix (p : path) : pystr :=
  match anchor p, parts p with
  | [], [] => [DOT]
  | a, cs => a ++ join_slash cs
  end.

(** [p.name], [p.stem], [p.parent] *)
Definition path_name (p : path) : pystr := List.last (parts p) [].

(** [s.rfind(".")], as an offset from the start when present *)
Fixpoint rfind_dot (s : pystr) : option nat :=
  match s with
  | [] => None
  | c :: s' =>
      match rfind_dot s' with
      | Some i => Some (S i)
      | None => if c =? DOT then Some O else None
      end
  end.

Definition path_stem (p : path) : pystr :=
  let name := path_name p in
  match rfind_dot name with
  | Some i =>
      if (0 <? i)%nat && (i <? length name - 1)%nat then firstn i name else name
  | None => name
  end.

Definition path_parent (p : path) : path :=
  Path (anchor p) (removelast (parts p)).

(** ** File system

    Nodes are keyed by the POSIX form of their path.  The current directory
    and the root (paths without components) always exist as directories. *)

Inductive node :=
  | File (content : bytes)
  | Dir.

Abbreviation filesystem := (gmap pystr node).

Definition node_at (fs : filesystem) (p : path) : option node :=
  match parts p with
  | [] => Some Dir
  | _ => fs !! as_posix p
  end.

(** The bytes of the regular file at [p], if there is one. *)
Definition file_content (fs : filesystem) (p : path) : option bytes :=
  match node_at fs p with
  | Some (File b) => Some b
  | _ => None
  end.

(** Effectful code: a result together with the file system it leaves, which
    an exception does not roll back. *)
Definition io (A : Type) : Type := filesystem -> result A * filesystem.

Definition io_ret {A} (a : A) : io A := fun fs => (Ok a, fs).
Definition io_raise {A} (e : exn) : io A := fun fs => (Raise e, fs).
Definition io_bind {A B} (m : io A) (k : A -> io B) : io B :=
  fun fs =>
    match m fs with
    | (Ok a, fs') => k a fs'
    | (Raise e, fs') => (Raise e, fs')
    end.
Definition io_lift {A} (r : result A) : io A := fun fs => (r, fs).

Declare Scope io_scope.
Delimit Scope io_scope with io.
Notation "'let*' x := m 'in' k" := (io_bind m (fun x => k))
  (at level 10, x name, m at level 100, k at level 200) : io_scope.

(** [p.exists()] *)
Definition path_exists (p : path) : io bool :=
  fun fs => (Ok (bool_decide (is_Some (node_at fs p))), fs).

(** The error of opening a path at which there is nothing, from the
    directories above it.  The operating system walks the components from
    the anchor down and stops at the first one that is not a directory: a
    regular file there is [ENOTDIR], nothing there is [ENOENT], as it is
    when all of them are directories and only the last component is
    missing. *)
Fixpoint missing_error (fs : filesystem) (a : pystr) (above todo : list pystr) : exn :=
  match todo with
  | [] => FileNotFoundError
  | c :: rest =>
      match fs !! as_posix (Path a (above ++ [c])) with
      | Some Dir => missing_error fs a (above ++ [c]) rest
      | Some (File _) => NotADirectoryError
      | None => FileNotFoundError
      end
  end.

(** [open(p, "rb").read()] *)
Definition read_bytes (p : path) : io bytes :=
  fun fs =>
    match node_at fs p with
    | Some (File b) => (Ok b, fs)
    | Some Dir => (Raise IsADirectoryError, fs)
    | None =>
        (Raise (missing_error fs (anchor p) [] (parts (path_parent p))), fs)
    end.

(** [open(p, "wb").write(data)]: creates or truncates the file; the parent
    directory has to exist. *)
Definition write_bytes (p : path) (data : bytes) : io unit :=
  fun fs =>
    match node_at fs p with
    | Some Dir => (Raise IsADirectoryError, fs)
    | _ =>
        match node_at fs (path_parent p) with
        | Some Dir => (Ok tt, <[as_posix p := File data]> fs)
        | Some (File _) => (Raise NotADirectoryError, fs)
        | None =>
            (Raise (missing_error fs (anchor p) [] (parts (path_parent p))), fs)
        end
    end.

(** [p.mkdir(parents=True, exist_ok=True)]: walks the components from the
    anchor down, creating the directories that are missing; a regular file in
    the way raises. *)
Fixpoint mkdir_chain (a : pystr) (above todo : list pystr) : io unit :=
  match todo with
  | [] => io_ret tt
  | c :: rest =>
      fun fs =>
        let q := Path a (above ++ [c]) in
        match fs !! as_posix q with
        | Some (File _) =>
            (Raise (match rest with [] => FileExistsError | _ => NotADirectoryError end), fs)
        | Some Dir => mkdir_chain a (above ++ [c]) rest fs
        | None => mkdir_chain a (above ++ [c]) rest (<[as_posix q := Dir]> fs)
        end
  end.

Definition mkdir_parents (p : path) : io unit := mkdir_chain (anchor p) [] (parts p).

(** ** Library behaviour taken as given

    What the script obtains from the Python runtime and from pandas, and
    that is not defined in the repository. *)

(** One sheet of an opened workbook: its name; the CSV text that
    [xls.parse(sheet_name).to_csv(path, index=False)] writes for it ([None]
    when parsing or converting the sheet raises); and, for a sheet whose
    [to_csv] raises after it has opened its file, what it has written to the
    file by then ([None] when [xls.parse] raises, which is before the file is
    opened).  [to_csv] opens the file for writing, which truncates it, and
    then writes the rows. *)
Record sheet := Sheet {
  sheet_title : pystr;
  sheet_csv : option bytes;
  sheet_partial : option bytes
}.

Class Runtime := {
  (** [c.isalnum()] for a code point outside ASCII (Unicode database) *)
  isalnum_nonascii : char -> bool;
  (** [int(s)] for a [str]; [None] is [ValueError] *)
  int_of_str : pystr -> option Z;
  (** [b.decode("utf-8")] and [s.encode("utf-8")] *)
  utf8_decode : bytes -> option pystr;
  utf8_encode : pystr -> option bytes;
  (** [json.loads(s)]; [None] is [JSONDecodeError] *)
  json_loads : pystr -> option json;
  (** [json.dumps(d, indent=2)] *)
  json_dumps : json -> pystr;
  (** [pd.ExcelFile] on the bytes of a file: the sheets in workbook order;
      [None] when the file is not a readable workbook *)
  excel_file : bytes -> option (list sheet)
}.

(** ** Data model *)

Record OutputEntry := {
  sheet_name : pystr;
  csv_path : pystr;
  sha256 : pystr
}.

Definition to_dict (o : OutputEntry) : json :=
  JObj [ (py "sheet_name", JStr (sheet_name o));
         (py "csv_path", JStr (csv_path o));
         (py "sha256", JStr (sha256 o)) ].

(** The command line, after [parse_args]. *)
Record Namespace := { arg_excel : pystr; arg_outdir : pystr; arg_manifest : pystr }.

(** ** Python built-ins used by the script *)

Definition HYPHEN : char := 45.
Definition UNDERSCORE : char := 95.
Definition NEWLINE : char := 10.

Definition ascii_isalnum (c : char) : bool :=
  (48 <=? c) && (c <=? 57) || (65 <=? c) && (c <=? 90) || (97 <=? c) && (c <=? 122).

(** [s.lstrip(chars)], [s.rstrip(chars)], [s.strip(chars)] *)
Fixpoint lstrip (chars s : pystr) : pystr :=
  match s with
  | [] => []
  | c :: s' => if bool_decide (c ∈ chars) then lstrip chars s' else s
  end.

Definition rstrip (chars s : pystr) : pystr := rev (lstrip chars (rev s)).

Definition strip (chars s : pystr) : pystr := rstrip chars (lstrip chars s).

(** Truth value of an object, as [or] and [if] test it. *)
Definition truthy (v : json) : bool :=
  match v with
  | JNull => false
  | JBool b => b
  | JInt n => negb (Z.eqb n 0)
  | JFloat (FFinite m _) => negb (Z.eqb m 0)
  | JFloat _ => true
  | JStr s => negb (str_eqb s [])
  | JArr l => match l with [] => false | _ => true end
  | JObj kv => match kv with [] => false | _ => true end
  end.

(** [a or b] *)
Definition py_or (a b : json) : json := if truthy a then a else b.

(** [obj.get(key, default)]: only a [dict] has [get]. *)
Definition py_get (obj : json) (key : pystr) (default : json) : result json :=
  match obj with
  | JObj kv => Ok (match dict_get kv key with Some v => v | None => default end)
  | _ => Raise AttributeError
  end.

(** [s != v] for a [str] s and any object v *)
Definition str_ne (s : pystr) (v : json) : bool :=
  match v with
  | JStr t => negb (str_eqb s t)
  | _ => true
  end.

(** [sorted(l, key=key)] on string keys: a stable sort. *)
Fixpoint insert_by {A} (key : A -> pystr) (x : A) (l : list A) : list A :=
  match l with
  | [] => [x]
  | y :: l' => if str_leb (key x) (key y) then x :: l else y :: insert_by key x l'
  end.

Definition sorted {A} (l : list A) (key : A -> pystr) : list A :=
  List.fold_right (insert_by key) [] l.

(** A [hashlib] object is modelled by the bytes it has absorbed. *)
Definition sha256_update (h chunk : bytes) : bytes := h ++ chunk.

Definition CHUNK : nat := N.to_nat (1024 * 1024).

(** ** The script *)

Section Script.
Context `{Runtime}.

Local Open Scope io_scope.

(** [int(v)] *)
Definition py_int (v : json) : result Z :=
  match v with
  | JInt n => Ok n
  | JBool b => Ok (if b then 1 else 0)%Z
  | JFloat (FFinite m e) =>
      Ok (if (0 <=? e)%Z then m * 2 ^ e else Z.quot m (2 ^ (- e)))%Z
  | JFloat (FInf _) => Raise OverflowError
  | JFloat FNan => Raise ValueError
  | JStr s => match int_of_str s with Some n => Ok n | None => Raise ValueError end
  | JNull | JArr _ | JObj _ => Raise TypeError
  end.

(** [c.isalnum()] *)
Definition isalnum (c : char) : bool :=
  if c <? 128 then ascii_isalnum c else isalnum_nonascii c.

(** [p.read_text(encoding="utf-8")] *)
Definition read_text (p : path) : io pystr :=
  let* b := read_bytes p in
  match utf8_decode b with
  | Some s => io_ret s
  | None => io_raise UnicodeDecodeError
  end.

(** [p.write_text(data, encoding="utf-8")]: the file is opened, which
    truncates it, before the text is encoded and written. *)
Definition write_text (p : path) (data : pystr) : io unit :=
  let* _ := write_bytes p [] in
  match utf8_encode data with
  | Some b => write_bytes p b
  | None => io_raise UnicodeEncodeError
  end.

(** The loop of [sha256_file]: [f.read(1024 * 1024)] until it returns
    [b""], each chunk fed to the hash object. *)
Fixpoint hash_chunks (fuel : nat) (rest h : bytes) : bytes :=
  match fuel with
  | O => h
  | S fuel' =>
      match firstn CHUNK rest with
      | [] => h
      | chunk => hash_chunks fuel' (skipn CHUNK rest) (sha256_update h chunk)
      end
  end.

Definition sha256_file (p : path) : io pystr :=
  let* data := read_bytes p in
  io_ret (Sha256.hexdigest (hash_chunks (length data) data [])).

Definition safe_filename (name : pystr) : pystr :=
  let cleaned :=
    strip [UNDERSCORE]
      (List.map (fun c => if isalnum c || bool_decide (c ∈ [HYPHEN; UNDERSCORE])
                          then c else UNDERSCORE) name) in
  if negb (str_eqb cleaned []) then cleaned else py "sheet".

Definition read_json (p : path) : io json :=
  let* found := path_exists p in
  if found then
    let* text := read_text p in
    match json_loads text with
    | Some d => io_ret d
    | None => io_raise JSONDecodeError
    end
  else io_ret (JObj []).

Definition write_json (p : path) (data : json) : io unit :=
  write_text p (json_dumps data ++ [NEWLINE]).

(** The [for] loop of [export_sheets_to_csv]. *)
Fixpoint export_loop (workbook_dir : path) (sheets : list sheet)
    (outputs : list OutputEntry) : io (list OutputEntry) :=
  match sheets with
  | [] => io_ret outputs
  | sh :: rest =>
      match sheet_csv sh with
      | None =>
          match sheet_partial sh with
          | None => io_raise SheetExportError
          | Some written =>
              let csv_file :=
                path_div workbook_dir (safe_filename (sheet_title sh) ++ py ".csv") in
              let* _ := write_bytes csv_file written in
              io_raise SheetExportError
          end
      | Some csv =>
          let csv_file :=
            path_div workbook_dir (safe_filename (sheet_title sh) ++ py ".csv") in
          let* _ := write_bytes csv_file csv in
          let* digest := sha256_file csv_file in
          export_loop workbook_dir rest
            (outputs ++ [ {| sheet_name := sheet_title sh;
                             csv_path := as_posix csv_file;
                             sha256 := digest |} ])
      end
  end.

Definition export_sheets_to_csv (excel_path outdir : path) : io (list OutputEntry) :=
  let* data := read_bytes excel_path in
  match excel_file data with
  | None => io_raise ExcelReadError
  | Some xls =>
      let workbook_dir := path_div outdir (path_stem excel_path) in
      let* _ := mkdir_parents workbook_dir in
      let* outputs := export_loop workbook_dir xls [] in
      io_ret (sorted outputs csv_path)
  end.

Definition next_version (old_manifest : json) (new_excel_sha : pystr) : result Z :=
  rbind (py_get old_manifest (py "version") (JInt 0)) (fun v =>
  rbind (py_int v) (fun old_version =>
  rbind (py_get old_manifest (py "source") JNull) (fun src =>
  rbind (py_get (py_or src (JObj [])) (py "sha256") (JStr [])) (fun old_sha =>
  Ok (if str_ne new_excel_sha old_sha then old_version + 1 else old_version)%Z)))).

Definition build_manifest (excel_path outdir manifest_path : path)
    (outputs : list OutputEntry) (excel_sha : pystr) (version : Z) : json :=
  JObj [ (py "version", JInt version);
         (py "generated_dir", JStr (as_posix outdir));
         (py "source", JObj [ (py "path", JStr (as_posix excel_path));
                              (py "sha256", JStr excel_sha) ]);
         (py "output", JArr (List.map to_dict outputs)) ].

Definition main (args : Namespace) : io unit :=
  let excel_path := path_of_str (arg_excel args) in
  let outdir := path_of_str (arg_outdir args) in
  let manifest_path := path_of_str (arg_manifest args) in
  let* found := path_exists excel_path in
  if negb found then
    io_raise (SystemExit (py "Excel file not found: " ++ as_posix excel_path))
  else
    let* _ := mkdir_parents outdir in
    let* _ := mkdir_parents (path_parent manifest_path) in
    let* old_manifest := read_json manifest_path in
    let* excel_sha := sha256_file excel_path in
    let* outputs := export_sheets_to_csv excel_path outdir in
    let* version := io_lift (next_version old_manifest excel_sha) in
    let new_manifest :=
      build_manifest excel_path outdir manifest_path outputs excel_sha version in
    write_json manifest_path new_manifest.

End Script.

(** The part of [main] before the final [write_json]: the value of its local
    variable [new_manifest]. *)
Definition new_manifest `{Runtime} (args : Namespace) : io json :=
  (let excel_path := path_of_str (arg_excel args) in
   let outdir := path_of_str (arg_outdir args) in
   let manifest_path := path_of_str (arg_manifest args) in
   let* found := path_exists excel_path in
   if negb found then
     io_raise (SystemExit (py "Excel file not found: " ++ as_posix excel_path))
   else
     let* _ := mkdir_parents outdir in
     let* _ := mkdir_parents (path_parent manifest_path) in
     let* old_manifest := read_json manifest_path in
     let* excel_sha := sha256_file excel_path in
     let* outputs := export_sheets_to_csv excel_path outdir in
     let* version := io_lift (next_version old_manifest excel_sha) in
     io_ret (build_manifest excel_path outdir manifest_path outputs excel_sha version))%io.

(** ** Specification vocabulary

    The notions the specification's sentences use, stated independently of
    the functions above. *)

(** The test and the replacement [safe_filename] applies to one character. *)
Definition keep `{Runtime} (c : char) : bool :=
  isalnum c || bool_decide (c ∈ [HYPHEN; UNDERSCORE]).

Definition clean_char `{Runtime} (c : char) : char := if keep c then c else UNDERSCORE.

(** The characters a filename stem keeps: alphanumeric, [-] or [_]. *)
Definition allowed `{Runtime} (c : char) : Prop :=
  isalnum c = true \/ c = HYPHEN \/ c = UNDERSCORE.

(** [r] is [s] with every character that is not allowed replaced by [_]. *)
Definition replaces_disallowed `{Runtime} (s r : pystr) : Prop :=
  Forall2 (fun c c' => (allowed c -> c' = c) /\ (~ allowed c -> c' = UNDERSCORE)) s r.

(** [r] is [s] without its leading and trailing [_] characters. *)
Definition strips_underscores (s r : pystr) : Prop :=
  exists pre post,
    s = pre ++ r ++ post /\
    Forall (fun c => c = UNDERSCORE) pre /\
    Forall (fun c => c = UNDERSCORE) post /\
    head r <> Some UNDERSCORE /\
    last r <> Some UNDERSCORE.

(** A manifest document as the data model types it, each field possibly
    missing: [version] an integer; [source] an object (or [null]) whose
    [sha256] is a string. *)
Definition is_manifest_doc (m : json) : bool :=
  match m with
  | JObj kv =>
      match dict_get kv (py "version") with
      | None | Some (JInt _) => true
      | Some _ => false
      end &&
      match dict_get kv (py "source") with
      | None | Some JNull => true
      | Some (JObj skv) =>
          match dict_get skv (py "sha256") with
          | None | Some (JStr _) => true
          | Some _ => false
          end
      | Some _ => false
      end
  | _ => false
  end.

(** The version a previous manifest contributes: 0 when the field is missing. *)
Definition recorded_version (m : json) : Z :=
  match m with
  | JObj kv => match dict_get kv (py "version") with Some (JInt n) => n | _ => 0%Z end
  | _ => 0%Z
  end.

(** The source hash a previous manifest contributes: the empty string when
    it is missing. *)
Definition recorded_sha (m : json) : pystr :=
  match m with
  | JObj kv =>
      match dict_get kv (py "source") with
      | Some (JObj skv) =>
          match dict_get skv (py "sha256") with Some (JStr h) => h | _ => [] end
      | _ => []
      end
  | _ => []
  end.

(** The [output] array of a manifest and the [csv_path] values in it. *)
Definition manifest_output (m : json) : list json :=
  match m with
  | JObj kv => match dict_get kv (py "output") with Some (JArr l) => l | _ => [] end
  | _ => []
  end.

Definition entry_csv_path (e : json) : pystr :=
  match e with
  | JObj kv => match dict_get kv (py "csv_path") with Some (JStr s) => s | _ => [] end
  | _ => []
  end.

Definition manifest_csv_paths (m : json) : list pystr :=
  List.map entry_csv_path (manifest_output m).

(** The sheets of the workbook a run exports, and the files it writes them
    to, for a given command line and file system. *)
Definition workbook_sheets `{Runtime} (args : Namespace) (fs : filesystem) : list sheet :=
  match file_content fs (path_of_str (arg_excel args)) with
  | Some data => match excel_file data with Some xls => xls | None => [] end
  | None => []
  end.

Definition workbook_dir_of (args : Namespace) : path :=
  path_div (path_of_str (arg_outdir args)) (path_stem (path_of_str (arg_excel args))).

Definition csv_file_of `{Runtime} (workbook_dir : path) (title : pystr) : path :=
  path_div workbook_dir (safe_filename title ++ py ".csv").

Definition csv_targets `{Runtime} (args : Namespace) (fs : filesystem) : list pystr :=
  List.map (fun sh => as_posix (csv_file_of (workbook_dir_of args) (sheet_title sh)))
           (workbook_sheets args fs).

(** The stems of the sheets of that workbook. *)
Definition workbook_stems `{Runtime} (args : Namespace) (fs : filesystem) : list pystr :=
  List.map (fun sh => safe_filename (sheet_title sh)) (workbook_sheets args fs).

(** The manifest document stored at [p], read back as [read_json] reads it. *)
Definition stored_manifest `{Runtime} (fs : filesystem) (p : path) : option json :=
  match file_content fs p with
  | Some b => match utf8_decode b with Some t => json_loads t | None => None end
  | None => None
  end.

(** The bytes of the regular file stored under the key [k], if any. *)
Definition file_at (fs : filesystem) (k : pystr) : option bytes :=
  match fs !! k with
  | Some (File b) => Some b
  | _ => None
  end.

(** The entry the export loop appends for a sheet whose CSV text is [csv]. *)
Definition entry_of `{Runtime} (workbook_dir : path) (title : pystr) (csv : bytes)
    : OutputEntry :=
  {| sheet_name := title;
     csv_path := as_posix (csv_file_of workbook_dir title);
     sha256 := Sha256.hexdigest csv |}.

Definition sheet_entry `{Runtime} (workbook_dir : path) (sh : sheet) : OutputEntry :=
  entry_of workbook_dir (sheet_title sh) (default [] (sheet_csv sh)).

Definition sheet_target `{Runtime} (workbook_dir : path) (sh : sheet) : pystr :=
  as_posix (csv_file_of workbook_dir (sheet_title sh)).

(** The order [sorted] arranges its result in. *)
Definition key_le {A} (key : A -> pystr) (a b : A) : Prop :=
  str_leb (key a) (key b) = true.

(** What [read_json] gets back from the text [write_json] writes for [d]:
    [json.loads] of the decoded encoding of [json.dumps(d, indent=2)] and a
    newline. *)
Definition reread `{Runtime} (d : json) : option json :=
  match utf8_encode (json_dumps d ++ [NEWLINE]) with
  | Some b => match utf8_decode b with Some t => json_loads t | None => None end
  | None => None
  end.

(** Directories: [fs'] has every directory of [fs]; [fs] and [fs'] have the
    same directories. *)
Definition dirs_kept (fs fs' : filesystem) : Prop :=
  forall k, fs !! k = Some Dir -> fs' !! k = Some Dir.

Definition same_dirs (fs fs' : filesystem) : Prop :=
  forall k, fs !! k = Some Dir <-> fs' !! k = Some Dir.

(** Every directory [mkdir_chain] would visit exists. *)
Fixpoint chain_dirs (a : pystr) (above todo : list pystr) (fs : filesystem) : Prop :=
  match todo with
  | [] => True
  | c :: rest =>
      fs !! as_posix (Path a (above ++ [c])) = Some Dir /\
      chain_dirs a (above ++ [c]) rest fs
  end.

Definition dirs_exist (p : path) (fs : filesystem) : Prop :=
  chain_dirs (anchor p) [] (parts p) fs.

(** A lower-case hexadecimal digit, as [hexdigest] prints them. *)
Definition is_lower_hex (c : char) : bool :=
  (48 <=? c) && (c <=? 57) || (97 <=? c) && (c <=? 102).


(** [fs'] has an entry of the same kind wherever [fs] has one: nothing was
    removed, and no regular file became a directory or the reverse. *)
Definition same_kind (n n' : node) : bool :=
  match n, n' with
  | File _, File _ | Dir, Dir => true
  | _, _ => false
  end.

Definition entries_kept (fs fs' : filesystem) : Prop :=
  forall k n, fs !! k = Some n -> exists n', fs' !! k = Some n' /\ same_kind n n' = true.

(** An action that keeps the entries, whatever its result. *)
Definition keeps_entries {A} (m : io A) : Prop :=
  forall fs r fs', m fs = (r, fs') -> entries_kept fs fs'.







(** ** A concrete runtime

    Enough of the Python runtime to run the script on concrete inputs: UTF-8,
    a JSON printer in the layout of [json.dumps(_, indent=2)], a JSON reader
    for documents without fractional numbers, decimal [int], the Latin-1 rows
    of the Unicode table, and a small table of workbooks. *)

Module Sample.

Definition utf8_encode_char (c : N) : option (list N) :=
  if c <? 0x80 then Some [c]
  else if c <? 0x800 then
    Some [N.lor 0xC0 (N.shiftr c 6); N.lor 0x80 (N.land c 0x3F)]
  else if c <? 0x10000 then
    if (0xD800 <=? c) && (c <=? 0xDFFF) then None
    else Some [N.lor 0xE0 (N.shiftr c 12);
               N.lor 0x80 (N.land (N.shiftr c 6) 0x3F);
               N.lor 0x80 (N.land c 0x3F)]
  else if c <? 0x110000 then
    Some [N.lor 0xF0 (N.shiftr c 18);
          N.lor 0x80 (N.land (N.shiftr c 12) 0x3F);
          N.lor 0x80 (N.land (N.shiftr c 6) 0x3F);
          N.lor 0x80 (N.land c 0x3F)]
  else None.

Fixpoint utf8_encode_N (s : pystr) : option (list N) :=
  match s with
  | [] => Some []
  | c :: s' =>
      match utf8_encode_char c, utf8_encode_N s' with
      | Some bs, Some rest => Some (bs ++ rest)
      | _, _ => None
      end
  end.

Definition to_byte (n : N) : byte :=
  match Byte.of_N n with Some b => b | None => x00 end.

Definition utf8_encode (s : pystr) : option bytes :=
  option_map (List.map to_byte) (utf8_encode_N s).

Definition is_cont (b : N) : bool := (0x80 <=? b) && (b <=? 0xBF).
Definition low6 (b : N) : N := N.land b 0x3F.

Fixpoint utf8_decode_N (bs : list N) : option pystr :=
  match bs with
  | [] => Some []
  | b0 :: r0 =>
      if b0 <? 0x80 then option_map (cons b0) (utf8_decode_N r0)
      else if (0xC2 <=? b0) && (b0 <=? 0xDF) then
        match r0 with
        | b1 :: r1 =>
            if is_cont b1
            then option_map (cons (N.lor (N.shiftl (N.land b0 0x1F) 6) (low6 b1)))
                            (utf8_decode_N r1)
            else None
        | _ => None
        end
      else if (0xE0 <=? b0) && (b0 <=? 0xEF) then
        match r0 with
        | b1 :: b2 :: r2 =>
            let c := N.lor (N.shiftl (N.land b0 0x0F) 12)
                           (N.lor (N.shiftl (low6 b1) 6) (low6 b2)) in
            if is_cont b1 && is_cont b2 && (0x800 <=? c)
               && negb ((0xD800 <=? c) && (c <=? 0xDFFF))
            then option_map (cons c) (utf8_decode_N r2)
            else None
        | _ => None
        end
      else if (0xF0 <=? b0) && (b0 <=? 0xF4) then
        match r0 with
        | b1 :: b2 :: b3 :: r3 =>
            let c := N.lor (N.shiftl (N.land b0 0x07) 18)
                           (N.lor (N.shiftl (low6 b1) 12)
                                  (N.lor (N.shiftl (low6 b2) 6) (low6 b3))) in
            if is_cont b1 && is_cont b2 && is_cont b3
               && (0x10000 <=? c) && (c <? 0x110000)
            then option_map (cons c) (utf8_decode_N r3)
            else None
        | _ => None
        end
      else None
  end.

Definition utf8_decode (b : bytes) : option pystr :=
  utf8_decode_N (List.map Byte.to_N b).

(** Decimal numerals, with an optional sign for [int]; the other spellings
    Python's [int] accepts (blanks around, underscores) are not read. *)
Fixpoint digits_of (fuel : nat) (n : N) (acc : pystr) : pystr :=
  match fuel with
  | O => acc
  | S fuel' =>
      let acc' := (48 + n mod 10) :: acc in
      if n <? 10 then acc' else digits_of fuel' (n / 10) acc'
  end.

Definition str_of_N (n : N) : pystr := digits_of (S (N.to_nat (N.log2 n))) n [].

Definition str_of_Z (z : Z) : pystr :=
  match z with
  | Zneg p => HYPHEN :: str_of_N (Npos p)
  | _ => str_of_N (Z.to_N z)
  end.

Definition is_digit (c : char) : bool := (48 <=? c) && (c <=? 57).

Fixpoint N_of_digits (s : pystr) (acc : N) : option N :=
  match s with
  | [] => Some acc
  | c :: s' => if is_digit c then N_of_digits s' (10 * acc + (c - 48)) else None
  end.

Definition int_of_str (s : pystr) : option Z :=
  match s with
  | [] => None
  | 45 :: (_ :: _) as ds => option_map (fun n => (- Z.of_N n)%Z) (N_of_digits ds 0)
  | 43 :: (_ :: _) as ds => option_map Z.of_N (N_of_digits ds 0)
  | 45 :: [] | 43 :: [] => None
  | ds => option_map Z.of_N (N_of_digits ds 0)
  end.

(** [str.isalnum] on U+0080..U+00FF; nothing is known beyond. *)
Definition isalnum_nonascii (c : char) : bool :=
  bool_decide (c ∈ [0xAA; 0xB2; 0xB3; 0xB5; 0xB9; 0xBA; 0xBC; 0xBD; 0xBE])
  || (0xC0 <=? c) && (c <=? 0xFF) && negb (c =? 0xD7) && negb (c =? 0xF7).

(** *** [json.dumps(_, indent=2)] *)

Definition hex4 (n : N) : pystr :=
  List.map (fun i => Sha256.hex_digit (N.land (N.shiftr n (4 * i)) 0xF)) [3; 2; 1; 0].

Definition BACKSLASH : char := 92.
Definition QUOTE : char := 34.

(** Escapes of the default [ensure_ascii=True] encoder. *)
Definition escape_char (c : char) : pystr :=
  if c =? QUOTE then [BACKSLASH; QUOTE]
  else if c =? BACKSLASH then [BACKSLASH; BACKSLASH]
  else if c =? 10 then BACKSLASH :: py "n"
  else if c =? 13 then BACKSLASH :: py "r"
  else if c =? 9 then BACKSLASH :: py "t"
  else if c =? 8 then BACKSLASH :: py "b"
  else if c =? 12 then BACKSLASH :: py "f"
  else if (32 <=? c) && (c <=? 126) then [c]
  else if c <? 0x10000 then BACKSLASH :: py "u" ++ hex4 c
  else
    let v := c - 0x10000 in
    BACKSLASH :: py "u" ++ hex4 (0xD800 + N.shiftr v 10)
    ++ BACKSLASH :: py "u" ++ hex4 (0xDC00 + N.land v 0x3FF).

Definition dumps_str (s : pystr) : pystr :=
  QUOTE :: concat (List.map escape_char s) ++ [QUOTE].

(** A finite float as an exact decimal. *)
Definition dumps_float (f : pyfloat) : pystr :=
  match f with
  | FNan => py "NaN"
  | FInf false => py "Infinity"
  | FInf true => py "-Infinity"
  | FFinite m e =>
      if (0 <=? e)%Z then str_of_Z (m * 2 ^ e) ++ py ".0"
      else
        let k := Z.to_nat (- e) in
        let ds := str_of_N (Z.abs_N m * 5 ^ N.of_nat k) in
        let ds := repeat 48 (S k - length ds) ++ ds in
        (if (m <? 0)%Z then [HYPHEN] else [])
        ++ firstn (length ds - k) ds ++ DOT :: skipn (length ds - k) ds
  end.

Fixpoint join_with (sep : pystr) (l : list pystr) : pystr :=
  match l with
  | [] => []
  | [x] => x
  | x :: rest => x ++ sep ++ join_with sep rest
  end.

Definition newline_indent (level : nat) : pystr :=
  NEWLINE :: repeat 32 (2 * level).

Fixpoint dumps_at (level : nat) (v : json) : pystr :=
  match v with
  | JNull => py "null"
  | JBool true => py "true"
  | JBool false => py "false"
  | JInt n => str_of_Z n
  | JFloat f => dumps_float f
  | JStr s => dumps_str s
  | JArr [] => py "[]"
  | JArr items =>
      py "[" ++ newline_indent (S level)
      ++ join_with (py "," ++ newline_indent (S level))
                   (List.map (dumps_at (S level)) items)
      ++ newline_indent level ++ py "]"
  | JObj [] => py "{}"
  | JObj entries =>
      py "{" ++ newline_indent (S level)
      ++ join_with (py "," ++ newline_indent (S level))
                   (List.map (fun kv => let '(k, x) := kv in
                                        dumps_str k ++ py ": " ++ dumps_at (S level) x)
                             entries)
      ++ newline_indent level ++ py "}"
  end.

Definition json_dumps (v : json) : pystr := dumps_at 0 v.

(** *** [json.loads] *)

Definition is_ws (c : char) : bool :=
  (c =? 32) || (c =? 10) || (c =? 13) || (c =? 9).

Fixpoint skip_ws (s : pystr) : pystr :=
  match s with
  | c :: s' => if is_ws c then skip_ws s' else s
  | [] => []
  end.

Definition hex_val (c : char) : option N :=
  if is_digit c then Some (c - 48)
  else if (97 <=? c) && (c <=? 102) then Some (c - 87)
  else if (65 <=? c) && (c <=? 70) then Some (c - 55)
  else None.

Definition hex4_val (a b c d : char) : option N :=
  match hex_val a, hex_val b, hex_val c, hex_val d with
  | Some x, Some y, Some z, Some w => Some (((x * 16 + y) * 16 + z) * 16 + w)
  | _, _, _, _ => None
  end.

(** The characters of a string literal, after its opening quote. *)
Fixpoint parse_chars (s acc : pystr) : option (pystr * pystr) :=
  match s with
  | [] => None
  | 34 :: r => Some (rev acc, r)
  | 92 :: r =>
      match r with
      | 34 :: r' => parse_chars r' (34 :: acc)
      | 92 :: r' => parse_chars r' (92 :: acc)
      | 47 :: r' => parse_chars r' (47 :: acc)
      | 98 :: r' => parse_chars r' (8 :: acc)
      | 102 :: r' => parse_chars r' (12 :: acc)
      | 110 :: r' => parse_chars r' (10 :: acc)
      | 114 :: r' => parse_chars r' (13 :: acc)
      | 116 :: r' => parse_chars r' (9 :: acc)
      | 117 :: h1 :: h2 :: h3 :: h4 :: r' =>
          match hex4_val h1 h2 h3 h4 with
          | None => None
          | Some u =>
              match r' with
              | 92 :: 117 :: l1 :: l2 :: l3 :: l4 :: r'' =>
                  match hex4_val l1 l2 l3 l4 with
                  | Some lo =>
                      if (0xD800 <=? u) && (u <=? 0xDBFF)
                         && (0xDC00 <=? lo) && (lo <=? 0xDFFF)
                      then parse_chars r''
                             (0x10000 + N.shiftl (u - 0xD800) 10 + (lo - 0xDC00) :: acc)
                      else parse_chars r' (u :: acc)
                  | None => parse_chars r' (u :: acc)
                  end
              | _ => parse_chars r' (u :: acc)
              end
          end
      | _ => None
      end
  | c :: r => if c <? 32 then None else parse_chars r (c :: acc)
  end.

Fixpoint span_digits (s acc : pystr) : pystr * pystr :=
  match s with
  | c :: s' => if is_digit c then span_digits s' (c :: acc) else (rev acc, s)
  | [] => (rev acc, [])
  end.

(** An integer literal; a fraction or an exponent is not read. *)
Definition parse_int (s : pystr) : option (json * pystr) :=
  let '(neg, s1) := match s with 45 :: r => (true, r) | _ => (false, s) end in
  let '(ds, rest) := span_digits s1 [] in
  match ds, rest with
  | [], _ => None
  | 48 :: _ :: _, _ => None
  | _, (46 | 69 | 101) :: _ => None
  | _, _ =>
      option_map (fun n => (JInt (if neg : bool then - Z.of_N n else Z.of_N n)%Z, rest))
                 (N_of_digits ds 0)
  end.

Definition strip_prefix (lit s : pystr) : option pystr :=
  if bool_decide (firstn (length lit) s = lit) then Some (skipn (length lit) s) else None.

(** A repeated key keeps its first position and takes the last value. *)
Fixpoint dict_put (entries : list (pystr * json)) (k : pystr) (v : json) :=
  match entries with
  | [] => [(k, v)]
  | (k', v') :: rest =>
      if str_eqb k' k then (k, v) :: rest else (k', v') :: dict_put rest k v
  end.

Fixpoint parse_value (fuel : nat) (s : pystr) : option (json * pystr) :=
  match fuel with
  | O => None
  | S fuel' =>
      match skip_ws s with
      | 123 :: r =>
          match skip_ws r with
          | 125 :: r' => Some (JObj [], r')
          | r' => parse_members fuel' r' []
          end
      | 91 :: r =>
          match skip_ws r with
          | 93 :: r' => Some (JArr [], r')
          | r' => parse_items fuel' r' []
          end
      | 34 :: r => option_map (fun '(t, r') => (JStr t, r')) (parse_chars r [])
      | (116 :: _) as t => option_map (pair (JBool true)) (strip_prefix (py "true") t)
      | (102 :: _) as t => option_map (pair (JBool false)) (strip_prefix (py "false") t)
      | (110 :: _) as t => option_map (pair JNull) (strip_prefix (py "null") t)
      | t => parse_int t
      end
  end
with parse_items (fuel : nat) (s : pystr) (acc : list json) : option (json * pystr) :=
  match fuel with
  | O => None
  | S fuel' =>
      match parse_value fuel' s with
      | None => None
      | Some (v, r) =>
          match skip_ws r with
          | 44 :: r' => parse_items fuel' r' (v :: acc)
          | 93 :: r' => Some (JArr (rev (v :: acc)), r')
          | _ => None
          end
      end
  end
with parse_members (fuel : nat) (s : pystr) (acc : list (pystr * json))
    : option (json * pystr) :=
  match fuel with
  | O => None
  | S fuel' =>
      match skip_ws s with
      | 34 :: r =>
          match parse_chars r [] with
          | None => None
          | Some (k, r1) =>
              match skip_ws r1 with
              | 58 :: r2 =>
                  match parse_value fuel' r2 with
                  | None => None
                  | Some (v, r3) =>
                      match skip_ws r3 with
                      | 44 :: r4 => parse_members fuel' r4 (dict_put acc k v)
                      | 125 :: r4 => Some (JObj (dict_put acc k v), r4)
                      | _ => None
                      end
                  end
              | _ => None
              end
          end
      | _ => None
      end
  end.

Definition json_loads (s : pystr) : option json :=
  match parse_value (2 * length s + 2) s with
  | Some (v, rest) => match skip_ws rest with [] => Some v | _ => None end
  | None => None
  end.

(** *** Workbooks

    The bytes stand for the contents of [.xlsx] files; the table gives, for
    each, the sheets pandas finds in it and the CSV text of each sheet. *)

Definition csv (s : string) : option bytes := Some (ascii_bytes (py s)).

(** A sheet that converts, and a sheet that [xls.parse] rejects. *)
Definition converted (title : string) (text : string) : sheet :=
  Sheet (py title) (csv text) None.

Definition unparsable (title : string) : sheet := Sheet (py title) None None.

Definition quarterly_xlsx : bytes := ascii_bytes (py "PK:quarterly:rev1").
Definition quarterly_rev2_xlsx : bytes := ascii_bytes (py "PK:quarterly:rev2").
Definition collide_xlsx : bytes := ascii_bytes (py "PK:collide").
Definition broken_sheet_xlsx : bytes := ascii_bytes (py "PK:broken-sheet").

Definition workbooks : list (bytes * list sheet) :=
  [ (quarterly_xlsx,
     [ converted "Q1 Data" "uprn,value
1,10
";
       converted "Q2-Data" "uprn,value
2,20
" ]);
    (quarterly_rev2_xlsx,
     [ converted "Q1 Data" "uprn,value
1,11
";
       converted "Q2-Data" "uprn,value
2,20
" ]);
    (collide_xlsx,
     [ converted "a b" "x
1
";
       converted "a_b" "x
2
" ]);
    (broken_sheet_xlsx,
     [ converted "A" "x
1
";
       unparsable "B" ]) ].

Fixpoint lookup_bytes {A} (table : list (bytes * A)) (b : bytes) : option A :=
  match table with
  | [] => None
  | (k, v) :: rest =>
      if bool_decide (List.map Byte.to_N k = List.map Byte.to_N b)
      then Some v else lookup_bytes rest b
  end.

Definition excel_file (b : bytes) : option (list sheet) := lookup_bytes workbooks b.

End Sample.

Definition sample_runtime : Runtime := {|
  isalnum_nonascii := Sample.isalnum_nonascii;
  int_of_str := Sample.int_of_str;
  utf8_decode := Sample.utf8_decode;
  utf8_encode := Sample.utf8_encode;
  json_loads := Sample.json_loads;
  json_dumps := Sample.json_dumps;
  excel_file := Sample.excel_file
|}.

(** ** Concrete runs

    Command lines and file systems for the runtime above. *)

Module Scenario.

Definition dirs (names : list string) (fs : filesystem) : filesystem :=
  List.fold_right (fun d acc => <[py d := Dir]> acc) fs names.

Definition file (name : string) (content : bytes) (fs : filesystem) : filesystem :=
  <[py name := File content]> fs.

(** The workbook of the specification's scenario, sheets [Q1 Data] and
    [Q2-Data], and no manifest yet. *)
Definition quarterly_args : Namespace :=
  {| arg_excel := py "data/quarterly.xlsx";
     arg_outdir := py "generated/csv";
     arg_manifest := py "generated/manifest.json" |}.

Definition quarterly_fs : filesystem :=
  file "data/quarterly.xlsx" Sample.quarterly_xlsx (dirs ["data"%string] ∅).

(** A workbook with the sheets [a b] and [a_b]. *)
Definition collide_args : Namespace :=
  {| arg_excel := py "data/collide.xlsx";
     arg_outdir := py "generated/csv";
     arg_manifest := py "generated/manifest.json" |}.

Definition collide_fs : filesystem :=
  file "data/collide.xlsx" Sample.collide_xlsx (dirs ["data"%string] ∅).

(** A workbook whose second sheet fails to convert, with a manifest from an
    earlier run; in the second command line the manifest path is the path of
    the CSV file of the first sheet. *)
Definition old_manifest_text : bytes :=
  ascii_bytes (py "{}") ++ ascii_bytes [NEWLINE].

Definition broken_args : Namespace :=
  {| arg_excel := py "data/broken.xlsx";
     arg_outdir := py "generated/csv";
     arg_manifest := py "generated/manifest.json" |}.

Definition broken_fs : filesystem :=
  file "data/broken.xlsx" Sample.broken_sheet_xlsx
    (file "generated/manifest.json" old_manifest_text
       (dirs ["data"%string; "generated"%string] ∅)).



(** A manifest file that is not JSON. *)
Definition malformed_fs : filesystem :=
  file "data/quarterly.xlsx" Sample.quarterly_xlsx
    (file "generated/manifest.json" (ascii_bytes (py "{ version: 1"))
       (dirs ["data"%string; "generated"%string] ∅)).

(** A manifest from an earlier run, at version 3. *)
Definition previous : json :=
  JObj [ (py "version", JInt 3);
         (py "generated_dir", JStr (py "generated/csv"));
         (py "source", JObj [ (py "path", JStr (py "data/quarterly.xlsx"));
                              (py "sha256", JStr (Sha256.hexdigest Sample.quarterly_xlsx)) ]);
         (py "output", JArr []) ].

(** The manifest the first run on [quarterly_fs] writes. *)
Definition quarterly_manifest : json :=
  JObj [ (py "version", JInt 1);
         (py "generated_dir", JStr (py "generated/csv"));
         (py "source",
          JObj [ (py "path", JStr (py "data/quarterly.xlsx"));
                 (py "sha256",
                  JStr (py "35b178541a038ae8e5a21ed04aa122be6ba21bdcbcc58bcbbbd8d03d530d2715")) ]);
         (py "output",
          JArr [ JObj [ (py "sheet_name", JStr (py "Q1 Data"));
                        (py "csv_path", JStr (py "generated/csv/quarterly/Q1_Data.csv"));
                        (py "sha256",
                         JStr (py "8e6e5ddf3a46eee4f3987d5387d0362750ee1689e67ff0bdfacaa5f2ddda76f7")) ];
                 JObj [ (py "sheet_name", JStr (py "Q2-Data"));
                        (py "csv_path", JStr (py "generated/csv/quarterly/Q2-Data.csv"));
                        (py "sha256",
                         JStr (py "8232c7213deab120acf01732a15741a2b3fbb214f262e781804868686ce523d4")) ] ]) ].

(** The manifest the run on [collide_fs] writes: both entries name the
    file [a_b.csv], which holds the text of the second sheet. *)
Definition collide_manifest : json :=
  JObj [ (py "version", JInt 1);
         (py "generated_dir", JStr (py "generated/csv"));
         (py "source",
          JObj [ (py "path", JStr (py "data/collide.xlsx"));
                 (py "sha256",
                  JStr (py "3cb85143165ec4e9794eb0ada571a3f2bdb001b13bd4c3011768d2d733956b2d")) ]);
         (py "output",
          JArr [ JObj [ (py "sheet_name", JStr (py "a b"));
                        (py "csv_path", JStr (py "generated/csv/collide/a_b.csv"));
                        (py "sha256",
                         JStr (py "daff832f802000e645771a60983c76c963f6ee602a6230e45237bd360e91cc1a")) ];
                 JObj [ (py "sheet_name", JStr (py "a_b"));
                        (py "csv_path", JStr (py "generated/csv/collide/a_b.csv"));
                        (py "sha256",
                         JStr (py "f44a920765178a372d1908907696f312b659cdb69834ed1de16492877d187955")) ] ]) ].

(** The text of the first sheet of the workbook with the failing sheet. *)
Definition sheet_A_csv : bytes :=
  ascii_bytes (py "x") ++ ascii_bytes [NEWLINE] ++ ascii_bytes (py "1") ++ ascii_bytes [NEWLINE].

End Scenario.

(** ** A second runtime

    The same libraries with two more workbooks: one holds the sheets of the
    quarterly workbook in the opposite order; in the other the first sheet
    converts and [to_csv] raises on the second after it has written the
    header line. *)

Module Reordered.

Definition quarterly_swapped_xlsx : bytes := ascii_bytes (py "PK:quarterly:swapped").

Definition half_written_xlsx : bytes := ascii_bytes (py "PK:half-written").

Definition header_line : bytes := ascii_bytes (py "x") ++ ascii_bytes [NEWLINE].

Definition half_written_sheets : list sheet :=
  [ Sheet (py "A") (Some Scenario.sheet_A_csv) None;
    Sheet (py "B") None (Some header_line) ].

Definition excel_file (b : bytes) : option (list sheet) :=
  if bool_decide (List.map Byte.to_N b = List.map Byte.to_N quarterly_swapped_xlsx)
  then option_map (@rev sheet) (Sample.excel_file Sample.quarterly_xlsx)
  else if bool_decide (List.map Byte.to_N b = List.map Byte.to_N half_written_xlsx)
  then Some half_written_sheets
  else Sample.excel_file b.


Definition swapped_fs : filesystem :=
  Scenario.file "data/quarterly.xlsx" quarterly_swapped_xlsx
    (Scenario.dirs ["data"%string] ∅).

(** The quarterly workbook replaced by its second revision after a run. *)
Definition revised (fs : filesystem) : filesystem :=
  Scenario.file "data/quarterly.xlsx" Sample.quarterly_rev2_xlsx fs.

End Reordered.

Definition reordered_runtime : Runtime := {|
  isalnum_nonascii := Sample.isalnum_nonascii;
  int_of_str := Sample.int_of_str;
  utf8_decode := Sample.utf8_decode;
  utf8_encode := Sample.utf8_encode;
  json_loads := Sample.json_loads;
  json_dumps := Sample.json_dumps;
  excel_file := Reordered.excel_file
|}.

(** * Properties *)

(** ** SHA-256: the FIPS 180-4 test vectors *)

Example sha256_empty :
  Sha256.hexdigest [] =
  py "e3b0c44298fc1c149afbf4c8996fb92427ae41e4649b934ca495991b7852b855".
Proof. vm_compute. reflexivity. Qed.

Example sha256_abc :
  Sha256.hexdigest (ascii_bytes (py "abc")) =
  py "ba7816bf8f01cfea414140de5dae2223b00361a396177a9cb410ff61f20015ad".
Proof. vm_compute. reflexivity. Qed.

Example sha256_two_blocks :
  Sha256.hexdigest
    (ascii_bytes (py "abcdbcdecdefdefgefghfghighijhijkijkljklmklmnlmnomnopnopq")) =
  py "248d6a61d20638b8e5c026930c3e6039a33ce45964ff2167f6ecedd419db06c1".
Proof. vm_compute. reflexivity. Qed.

(** A hex digest is never the empty string: it has 64 characters. *)
Lemma hexdigest_length (msg : bytes) : length (Sha256.hexdigest msg) = 64%nat.
Proof. reflexivity. Qed.

Lemma hexdigest_nonempty (msg : bytes) : Sha256.hexdigest msg <> [].
Proof. intros E. pose proof (hexdigest_length msg) as L. rewrite E in L. discriminate. Qed.

(** ** Strings *)

Lemma str_eqb_eq (a b : pystr) : str_eqb a b = true <-> a = b.
Proof. unfold str_eqb. apply bool_decide_eq_true. Qed.

Lemma str_eqb_refl (a : pystr) : str_eqb a a = true.
Proof. by apply str_eqb_eq. Qed.

Lemma str_eqb_sym (a b : pystr) : str_eqb a b = str_eqb b a.
Proof. unfold str_eqb. apply bool_decide_ext. split; congruence. Qed.

Lemma str_eqb_neq (a b : pystr) : str_eqb a b = false <-> a <> b.
Proof. unfold str_eqb. apply bool_decide_eq_false. Qed.

Lemma str_leb_refl (a : pystr) : str_leb a a = true.
Proof. induction a as [|x a IH]; simpl; [done|]. by rewrite N.ltb_irrefl. Qed.

Lemma str_leb_total (a b : pystr) : str_leb a b = true \/ str_leb b a = true.
Proof.
  revert b. induction a as [|x a IH]; intros [|y b]; simpl; auto.
  destruct (N.ltb_spec x y), (N.ltb_spec y x); auto; lia.
Qed.

Lemma str_leb_trans (a b c : pystr) :
  str_leb a b = true -> str_leb b c = true -> str_leb a c = true.
Proof.
  revert b c. induction a as [|x a IH]; intros [|y b] [|z c]; simpl; auto; try done.
  destruct (N.ltb_spec x y), (N.ltb_spec y x), (N.ltb_spec y z), (N.ltb_spec z y),
    (N.ltb_spec x z), (N.ltb_spec z x); try done; try lia.
  apply IH.
Qed.

Lemma str_leb_antisym (a b : pystr) :
  str_leb a b = true -> str_leb b a = true -> a = b.
Proof.
  revert b. induction a as [|x a IH]; intros [|y b]; simpl; auto; try done.
  destruct (N.ltb_spec x y), (N.ltb_spec y x); try done; try lia.
  intros. f_equal; [lia | by apply IH].
Qed.

(** ** [strip] *)

Lemma lstrip_app_strippable (chars pre s : pystr) :
  Forall (fun c => c ∈ chars) pre -> lstrip chars (pre ++ s) = lstrip chars s.
Proof.
  induction 1 as [|c pre Hc _ IH]; simpl; [done|].
  by rewrite bool_decide_eq_true_2.
Qed.

Lemma lstrip_all (chars s : pystr) :
  Forall (fun c => c ∈ chars) s -> lstrip chars s = [].
Proof.
  intros Hs. rewrite <- (app_nil_r s). by rewrite lstrip_app_strippable.
Qed.

Lemma lstrip_head_kept (chars s : pystr) c :
  head s = Some c -> c ∉ chars -> lstrip chars s = s.
Proof.
  destruct s as [|x s]; simpl; [done|].
  intros [= ->] Hc. by rewrite bool_decide_eq_false_2.
Qed.

(** What [lstrip] leaves does not start with a stripped character, and what
    it removes consists of stripped characters. *)
Lemma lstrip_split (chars s : pystr) :
  exists pre,
    s = pre ++ lstrip chars s /\
    Forall (fun c => c ∈ chars) pre /\
    (forall c, head (lstrip chars s) = Some c -> c ∉ chars).
Proof.
  induction s as [|x s (pre & E & Hpre & Hhd)]; simpl.
  - exists []. repeat split; [constructor | done].
  - case_bool_decide as Hx.
    + exists (x :: pre). repeat split; [simpl; by f_equal | by constructor | done].
    + exists []. repeat split; [constructor|]. by intros c [= <-].
Qed.

Lemma lstrip_idem (chars s : pystr) :
  lstrip chars (lstrip chars s) = lstrip chars s.
Proof.
  destruct (lstrip_split chars s) as (pre & _ & _ & Hhd).
  destruct (lstrip chars s) as [|c r] eqn:E; [done|].
  apply (lstrip_head_kept _ _ c); [done | by apply Hhd].
Qed.

Lemma last_rev_head {A} (l : list A) : last l = head (rev l).
Proof.
  induction l as [|x l IH] using rev_ind; [done|].
  by rewrite last_snoc, rev_unit.
Qed.

Lemma head_rev_last {A} (l : list A) : head l = last (rev l).
Proof. by rewrite last_rev_head, rev_involutive. Qed.

Lemma Forall_rev_iff {A} (P : A -> Prop) (l : list A) : Forall P (rev l) <-> Forall P l.
Proof. rewrite !List.Forall_forall. by setoid_rewrite <- in_rev. Qed.

(** [strip] meets the specification's notion of stripping. *)
Lemma strip_strips (s : pystr) : strips_underscores s (strip [UNDERSCORE] s).
Proof.
  unfold strip, rstrip.
  destruct (lstrip_split [UNDERSCORE] s) as (pre & E1 & Hpre & Hhd1).
  set (t := lstrip [UNDERSCORE] s) in *.
  destruct (lstrip_split [UNDERSCORE] (rev t)) as (post & E2 & Hpost & Hhd2).
  set (u := lstrip [UNDERSCORE] (rev t)) in *.
  exists pre, (rev post). repeat split.
  - rewrite E1 at 1. f_equal. rewrite <- rev_app_distr, <- E2. by rewrite rev_involutive.
  - eapply Forall_impl; [exact Hpre|]. intros c Hc. by apply list_elem_of_singleton in Hc.
  - apply Forall_rev_iff. eapply Forall_impl; [exact Hpost|].
    intros c Hc. by apply list_elem_of_singleton in Hc.
  - intros Hh.
    assert (t = rev u ++ rev post) as Et.
    { rewrite <- rev_app_distr, <- E2. by rewrite rev_involutive. }
    destruct (rev u) as [|c r]; [done|]. injection Hh as ->.
    apply (Hhd1 UNDERSCORE); [by rewrite Et | by apply list_elem_of_singleton].
  - rewrite last_rev_head, rev_involutive. intros Hh.
    apply (Hhd2 _ Hh). by apply list_elem_of_singleton.
Qed.

(** Conversely the specification's notion determines the result. *)
Lemma strips_underscores_unique (s r : pystr) :
  strips_underscores s r -> strip [UNDERSCORE] s = r.
Proof.
  intros (pre & post & -> & Hpre & Hpost & Hhd & Hlast).
  assert (forall l, Forall (fun c => c = UNDERSCORE) l ->
                    Forall (fun c => c ∈ [UNDERSCORE]) l) as Hin.
  { intros l Hl. eapply Forall_impl; [exact Hl|]. intros c ->. apply list_elem_of_here. }
  unfold strip, rstrip. rewrite lstrip_app_strippable by auto.
  destruct r as [|c r'] eqn:Er.
  - simpl. rewrite (lstrip_all _ post) by auto. done.
  - rewrite <- Er in *.
    rewrite (lstrip_head_kept _ (r ++ post) c).
    + rewrite rev_app_distr, lstrip_app_strippable by (apply Forall_rev_iff; auto).
      destruct (last r) as [d|] eqn:Ed.
      * rewrite (lstrip_head_kept _ (rev r) d); [by rewrite rev_involutive | |].
        -- by rewrite <- last_rev_head.
        -- intros ->%list_elem_of_singleton. done.
      * apply last_None in Ed. by subst r.
    + by subst r.
    + intros ->%list_elem_of_singleton. subst r. done.
Qed.

(** ** [safe_filename] *)

Section SafeFilename.
Context `{Runtime}.

Lemma safe_filename_unfold (name : pystr) :
  safe_filename name =
  let cleaned := strip [UNDERSCORE] (List.map clean_char name) in
  if negb (str_eqb cleaned []) then cleaned else py "sheet".
Proof. reflexivity. Qed.

Lemma keep_allowed (c : char) : keep c = true <-> allowed c.
Proof.
  unfold keep, allowed. rewrite orb_true_iff, bool_decide_eq_true.
  rewrite elem_of_cons, list_elem_of_singleton. tauto.
Qed.

Lemma keep_underscore : keep UNDERSCORE = true.
Proof. apply keep_allowed. right. by right. Qed.

Lemma keep_clean_char (c : char) : keep (clean_char c) = true.
Proof.
  unfold clean_char. destruct (keep c) eqn:E; [done | apply keep_underscore].
Qed.

Lemma clean_char_kept (c : char) : keep c = true -> clean_char c = c.
Proof. unfold clean_char. by intros ->. Qed.

Lemma map_clean_char_replaces (name : pystr) :
  replaces_disallowed name (List.map clean_char name).
Proof.
  induction name as [|c name IH]; simpl; constructor; [|exact IH].
  unfold clean_char. destruct (keep c) eqn:E.
  - split; [done|]. intros Hn. exfalso. by apply Hn, keep_allowed.
  - split; [|done]. intros Ha%keep_allowed. congruence.
Qed.

Lemma replaces_disallowed_unique (name r : pystr) :
  replaces_disallowed name r -> r = List.map clean_char name.
Proof.
  induction 1 as [|c c' name r [Hyes Hno] _ IH]; simpl; [done|].
  f_equal; [|exact IH]. unfold clean_char. destruct (keep c) eqn:E.
  - by apply Hyes, keep_allowed.
  - apply Hno. intros Ha%keep_allowed. congruence.
Qed.

(** Characters of a stripped string are characters of the string. *)
Lemma lstrip_subseteq (chars s : pystr) c : c ∈ lstrip chars s -> c ∈ s.
Proof.
  destruct (lstrip_split chars s) as (pre & E & _). intros Hc.
  rewrite E. apply elem_of_app. by right.
Qed.

Lemma strip_subseteq (chars s : pystr) c : c ∈ strip chars s -> c ∈ s.
Proof.
  unfold strip, rstrip. rewrite list_elem_of_In, <- in_rev, <- list_elem_of_In.
  intros Hc%lstrip_subseteq. rewrite list_elem_of_In, <- in_rev, <- list_elem_of_In in Hc.
  by apply lstrip_subseteq in Hc.
Qed.

Lemma strip_fixpoint (s : pystr) :
  head s <> Some UNDERSCORE -> last s <> Some UNDERSCORE ->
  strip [UNDERSCORE] s = s.
Proof.
  intros Hh Hl. apply strips_underscores_unique. exists [], [].
  rewrite app_nil_r. simpl. by repeat split.
Qed.

Lemma safe_filename_sheet : safe_filename (py "sheet") = py "sheet".
Proof. reflexivity. Qed.

End SafeFilename.

(** C4. The stem [safe_filename] computes is the one the specification
    describes: every character of the sheet name that is neither alphanumeric
    nor [-] nor [_] is replaced by [_], the leading and trailing [_] are
    stripped, and an empty result becomes the literal stem [sheet]. *)
Theorem safe_filename_spec `{Runtime} (name : pystr) :
  exists replaced cleaned,
    replaces_disallowed name replaced /\
    strips_underscores replaced cleaned /\
    safe_filename name = match cleaned with [] => py "sheet" | _ => cleaned end.
Proof.
  exists (List.map clean_char name), (strip [UNDERSCORE] (List.map clean_char name)).
  split; [apply map_clean_char_replaces|]. split; [apply strip_strips|].
  rewrite safe_filename_unfold. cbv zeta.
  destruct (strip _ _) as [|c r] eqn:E; [done|].
  by rewrite (proj2 (str_eqb_neq _ _)).
Qed.

(** The description in C4 fixes the stem: any string obtained by the
    replacement and the stripping it names gives [safe_filename]'s result. *)
Lemma safe_filename_spec_unique `{Runtime} (name replaced cleaned : pystr) :
  replaces_disallowed name replaced ->
  strips_underscores replaced cleaned ->
  safe_filename name = match cleaned with [] => py "sheet" | _ => cleaned end.
Proof.
  intros ->%replaces_disallowed_unique <-%strips_underscores_unique.
  rewrite safe_filename_unfold. cbv zeta.
  destruct (strip _ _) as [|c r] eqn:E; [done|].
  by rewrite (proj2 (str_eqb_neq _ _)).
Qed.

(** A name made of disallowed characters only sanitizes to [sheet]. *)
Lemma safe_filename_all_disallowed `{Runtime} (name : pystr) :
  Forall (fun c => ~ allowed c) name -> safe_filename name = py "sheet".
Proof.
  intros Hall. rewrite safe_filename_unfold. cbv zeta.
  assert (strip [UNDERSCORE] (List.map clean_char name) = []) as ->; [|done].
  unfold strip. rewrite lstrip_all; [done|].
  apply List.Forall_map. eapply Forall_impl; [exact Hall|].
  intros c Hc. unfold clean_char. destruct (keep c) eqn:E.
  - exfalso. by apply Hc, keep_allowed.
  - apply list_elem_of_here.
Qed.

(** C5. Sanitizing a sanitized name changes nothing. *)
Theorem safe_filename_idempotent `{Runtime} (s : pystr) :
  safe_filename (safe_filename s) = safe_filename s.
Proof.
  rewrite (safe_filename_unfold s). cbv zeta.
  set (cleaned := strip [UNDERSCORE] (List.map clean_char s)).
  destruct (str_eqb cleaned []) eqn:E; simpl; [apply safe_filename_sheet|].
  apply str_eqb_neq in E.
  destruct (strip_strips (List.map clean_char s)) as (pre & post & _ & _ & _ & Hh & Hl).
  fold cleaned in Hh, Hl.
  rewrite safe_filename_unfold. cbv zeta.
  assert (List.map clean_char cleaned = cleaned) as ->.
  { rewrite <- (map_id cleaned) at 2. apply map_ext_in. intros c Hc.
    apply clean_char_kept. apply list_elem_of_In in Hc.
    apply strip_subseteq, list_elem_of_In, in_map_iff in Hc as (c0 & <- & _).
    apply keep_clean_char. }
  rewrite strip_fixpoint by done.
  by rewrite (proj2 (str_eqb_neq _ _)).
Qed.

(** ** [next_version] *)

Section NextVersion.
Context `{Runtime}.

Lemma py_get_or_dict (skv : list (pystr * json)) (k : pystr) (d : json) :
  py_get (py_or (JObj skv) (JObj [])) k d = Ok (default d (dict_get skv k)).
Proof. by destruct skv. Qed.

(** On a manifest document, [next_version] returns, and the result is the
    one the versioning rule gives. *)
Lemma next_version_doc (m : json) (h : pystr) :
  is_manifest_doc m = true ->
  next_version m h =
  Ok (if str_eqb (recorded_sha m) h then recorded_version m
      else recorded_version m + 1)%Z.
Proof.
  destruct m as [| | | | | |kv]; try done. simpl. intros [Hv Hs]%andb_true_iff.
  unfold next_version. simpl.
  assert (forall n : Z,
    rbind (py_get (py_or (default JNull (dict_get kv (py "source"))) (JObj []))
                  (py "sha256") (JStr []))
          (fun old_sha => Ok (if str_ne h old_sha then n + 1 else n)%Z) =
    Ok (if str_eqb (recorded_sha (JObj kv)) h then n else n + 1)%Z) as Hsha.
  { intros n. simpl.
    destruct (dict_get kv (py "source")) as [[| | | | | |skv]|]; try done; simpl.
    - rewrite (str_eqb_sym h). by destruct (str_eqb [] h).
    - rewrite py_get_or_dict.
      destruct (dict_get skv (py "sha256")) as [[]|]; try done; simpl;
        rewrite (str_eqb_sym h); by destruct (str_eqb _ h).
    - rewrite (str_eqb_sym h). by destruct (str_eqb [] h). }
  destruct (dict_get kv (py "version")) as [[]|] eqn:Ev; try done; simpl.
  - etrans; [|apply Hsha]. by destruct (dict_get kv (py "source")).
  - etrans; [|apply Hsha]. by destruct (dict_get kv (py "source")).
Qed.

(** Whatever the previous document is, a result of [next_version] is the
    integer read from its [version] field, or that integer plus one. *)
Lemma next_version_range (m : json) (h : pystr) (v : Z) :
  next_version m h = Ok v ->
  exists old,
    rbind (py_get m (py "version") (JInt 0)) py_int = Ok old /\
    (v = old \/ v = old + 1)%Z.
Proof.
  unfold next_version.
  destruct (py_get m (py "version") (JInt 0)) as [x|]; simpl; [|done].
  destruct (py_int x) as [old|]; simpl; [|done].
  destruct (py_get m (py "source") JNull) as [src|]; simpl; [|done].
  destruct (py_get (py_or src (JObj [])) (py "sha256") (JStr [])) as [sha|]; simpl; [|done].
  intros [= <-]. exists old. split; [done|]. destruct (str_ne h sha); auto.
Qed.

End NextVersion.

(** ** The file system and the [io] monad *)

Lemma io_bind_Ok {A B} (m : io A) (k : A -> io B) fs b fs' :
  io_bind m k fs = (Ok b, fs') ->
  exists a fs1, m fs = (Ok a, fs1) /\ k a fs1 = (Ok b, fs').
Proof.
  unfold io_bind. destruct (m fs) as [[a|e] fs1]; [eauto | done].
Qed.


Lemma run_eta {A} (m : io A) (fs : filesystem) (r : result A) :
  fst (m fs) = r -> m fs = (r, snd (m fs)).
Proof. destruct (m fs). simpl. by intros ->. Qed.

Lemma io_bind_step {A B} (m : io A) (k : A -> io B) fs a fs1 :
  m fs = (Ok a, fs1) -> io_bind m k fs = k a fs1.
Proof. unfold io_bind. by intros ->. Qed.

Lemma io_bind_fail {A B} (m : io A) (k : A -> io B) fs e fs1 :
  m fs = (Raise e, fs1) -> io_bind m k fs = (Raise e, fs1).
Proof. unfold io_bind. by intros ->. Qed.

Lemma file_content_file_at (fs : filesystem) (p : path) :
  file_content fs p = match parts p with [] => None | _ => file_at fs (as_posix p) end.
Proof. unfold file_content, node_at, file_at. by destruct (parts p). Qed.

Lemma file_content_agree (fs fs' : filesystem) (p : path) :
  file_at fs' (as_posix p) = file_at fs (as_posix p) ->
  file_content fs' p = file_content fs p.
Proof. rewrite !file_content_file_at. by intros ->. Qed.

Lemma file_content_node (fs : filesystem) (p : path) (b : bytes) :
  file_content fs p = Some b <-> node_at fs p = Some (File b).
Proof.
  unfold file_content. destruct (node_at fs p) as [[]|]; split; congruence.
Qed.

Lemma file_at_insert_dir (fs : filesystem) (k k' : pystr) :
  fs !! k = None -> file_at (<[k := Dir]> fs) k' = file_at fs k'.
Proof.
  intros Hk. unfold file_at. destruct (decide (k = k')) as [<-|Hne].
  - by rewrite lookup_insert_eq, Hk.
  - by rewrite lookup_insert_ne.
Qed.

Lemma file_at_insert_ne (fs : filesystem) (k k' : pystr) (n : node) :
  k <> k' -> file_at (<[k := n]> fs) k' = file_at fs k'.
Proof. intros Hne. unfold file_at. by rewrite lookup_insert_ne. Qed.

(** Creating directories leaves every regular file as it is. *)
Lemma mkdir_chain_files (a : pystr) (above todo : list pystr) (fs fs' : filesystem) (r : result unit) :
  mkdir_chain a above todo fs = (r, fs') ->
  forall k, file_at fs' k = file_at fs k.
Proof.
  revert above fs. induction todo as [|c rest IH]; intros above fs; simpl.
  - by intros [= _ ->].
  - destruct (fs !! as_posix (Path a (above ++ [c]))) as [[b|]|] eqn:E.
    + by intros [= _ ->].
    + apply IH.
    + intros Hrun k. rewrite (IH _ _ Hrun k). by apply file_at_insert_dir.
Qed.

Lemma mkdir_parents_files (p : path) (fs fs' : filesystem) (r : result unit) :
  mkdir_parents p fs = (r, fs') -> forall k, file_at fs' k = file_at fs k.
Proof. apply mkdir_chain_files. Qed.

Lemma path_exists_run (p : path) (fs : filesystem) :
  path_exists p fs = (Ok (bool_decide (is_Some (node_at fs p))), fs).
Proof. reflexivity. Qed.

Lemma read_bytes_state (p : path) (fs fs' : filesystem) (r : result bytes) :
  read_bytes p fs = (r, fs') -> fs' = fs.
Proof. unfold read_bytes. destruct (node_at fs p) as [[]|]; by intros [= _ ->]. Qed.

Lemma read_bytes_Ok (p : path) (fs fs' : filesystem) (b : bytes) :
  read_bytes p fs = (Ok b, fs') <-> file_content fs p = Some b /\ fs' = fs.
Proof.
  unfold read_bytes, file_content. destruct (node_at fs p) as [[]|]; split;
    try (intros [= <- <-]); try (intros [[= <-] ->]); try done; by intros [].
Qed.

(** A write changes the file it names and nothing else; when it raises it
    changes nothing. *)
Lemma write_bytes_Ok (p : path) (data : bytes) (fs fs' : filesystem) :
  write_bytes p data fs = (Ok tt, fs') ->
  fs' = <[as_posix p := File data]> fs /\ parts p <> [] /\
  file_content fs' p = Some data.
Proof.
  unfold write_bytes. intros Hw.
  assert (parts p <> []) as Hparts.
  { intros E. unfold node_at in Hw at 1. by rewrite E in Hw. }
  destruct (node_at fs p) as [[]|]; try done;
    (destruct (node_at fs (path_parent p)) as [[]|]; try done);
    injection Hw as <-; (split; [done|]; split; [done|]);
    rewrite file_content_file_at; destruct (parts p); try done;
    unfold file_at; by rewrite lookup_insert_eq.
Qed.

Lemma write_bytes_Raise (p : path) (data : bytes) (fs fs' : filesystem) (e : exn) :
  write_bytes p data fs = (Raise e, fs') -> fs' = fs.
Proof.
  unfold write_bytes.
  destruct (node_at fs p) as [[]|]; try (by intros [= _ ->]);
    destruct (node_at fs (path_parent p)) as [[]|]; by intros [= _ ->].
Qed.

Lemma write_bytes_others (p : path) (data : bytes) (fs fs' : filesystem) (r : result unit) (k : pystr) :
  write_bytes p data fs = (r, fs') -> k <> as_posix p ->
  file_at fs' k = file_at fs k.
Proof.
  destruct r as [[]|e]; intros Hw Hk.
  - apply write_bytes_Ok in Hw as (-> & _). by apply file_at_insert_ne.
  - by apply write_bytes_Raise in Hw as ->.
Qed.

(** ** [sha256_file] *)

Lemma CHUNK_pos : (0 < CHUNK)%nat.
Proof.
  unfold CHUNK. replace (1024 * 1024) with 1048576 by reflexivity.
  apply (Pos2Nat.is_pos 1048576).
Qed.

Section Hashing.
Context `{Runtime}.

(** The chunked loop feeds the whole file to the hash object, whatever its
    size: fuel equal to the length of the file is enough. *)
Lemma hash_chunks_all (fuel : nat) (rest h : bytes) :
  (length rest <= fuel)%nat -> hash_chunks fuel rest h = h ++ rest.
Proof.
  pose proof CHUNK_pos as Hpos. revert rest h.
  induction fuel as [|fuel IH]; intros rest h Hlen; simpl.
  - destruct rest; [by rewrite app_nil_r | simpl in Hlen; lia].
  - destruct (firstn CHUNK rest) as [|b chunk] eqn:E.
    + destruct rest as [|x rest]; [by rewrite app_nil_r|].
      destruct CHUNK; [lia | done].
    + rewrite <- E. rewrite IH.
      * unfold sha256_update. by rewrite <- app_assoc, firstn_skipn.
      * rewrite length_skipn. destruct rest; [done|]. cbn [length] in *. lia.
Qed.

Lemma sha256_file_run (p : path) (fs : filesystem) :
  sha256_file p fs =
  match file_content fs p with
  | Some data => (Ok (Sha256.hexdigest data), fs)
  | None => (Raise (match node_at fs p with
                    | Some Dir => IsADirectoryError
                    | _ => missing_error fs (anchor p) [] (parts (path_parent p))
                    end), fs)
  end.
Proof.
  unfold sha256_file, io_bind, read_bytes, file_content.
  destruct (node_at fs p) as [[data|]|]; try done.
  unfold io_ret. by rewrite hash_chunks_all.
Qed.

Lemma sha256_file_state (p : path) (fs fs' : filesystem) (r : result pystr) :
  sha256_file p fs = (r, fs') -> fs' = fs.
Proof. rewrite sha256_file_run. destruct (file_content fs p); by intros [= _ ->]. Qed.

End Hashing.

(** ** [read_json] and [write_json] *)

Section Json.
Context `{Runtime}.

(** What [read_json] returns, by the three states of the path. *)
Lemma read_json_run (p : path) (fs : filesystem) :
  read_json p fs =
  match node_at fs p with
  | None => (Ok (JObj []), fs)
  | Some Dir => (Raise IsADirectoryError, fs)
  | Some (File b) =>
      match utf8_decode b with
      | None => (Raise UnicodeDecodeError, fs)
      | Some t =>
          match json_loads t with
          | None => (Raise JSONDecodeError, fs)
          | Some d => (Ok d, fs)
          end
      end
  end.
Proof.
  unfold read_json, io_bind, path_exists, read_text, io_bind, read_bytes, io_ret, io_raise.
  destruct (node_at fs p) as [[b|]|] eqn:E.
  - rewrite bool_decide_eq_true_2 by eauto. rewrite E.
    destruct (utf8_decode b) as [t|]; [|done].
    by destruct (json_loads t).
  - rewrite bool_decide_eq_true_2 by eauto. by rewrite E.
  - by rewrite bool_decide_eq_false_2 by apply is_Some_None.
Qed.

Lemma read_json_state (p : path) (fs fs' : filesystem) (r : result json) :
  read_json p fs = (r, fs') -> fs' = fs.
Proof.
  rewrite read_json_run. destruct (node_at fs p) as [[b|]|]; try (by intros [= _ ->]).
  destruct (utf8_decode b) as [t|]; [|by intros [= _ ->]].
  destruct (json_loads t); by intros [= _ ->].
Qed.


Lemma write_json_Ok (p : path) (d : json) (fs fs' : filesystem) :
  write_json p d fs = (Ok tt, fs') ->
  exists b, utf8_encode (json_dumps d ++ [NEWLINE]) = Some b /\
            file_content fs' p = Some b.
Proof.
  unfold write_json, write_text, io_bind. intros Hw.
  destruct (write_bytes p [] fs) as [[[]|e] fs1] eqn:E1; [|done].
  destruct (utf8_encode _) as [b|]; [|done].
  exists b. split; [done|]. by apply write_bytes_Ok in Hw as (_ & _ & ?).
Qed.

End Json.

(** ** [export_sheets_to_csv] *)

Section ExportSheets.
Context `{Runtime}.

(** One turn of the loop, for a sheet that converts. *)
Lemma export_loop_cons (wd : path) (sh : sheet) (rest : list sheet)
    (outs : list OutputEntry) (csv : bytes) (fs : filesystem) :
  sheet_csv sh = Some csv ->
  export_loop wd (sh :: rest) outs fs =
  match write_bytes (csv_file_of wd (sheet_title sh)) csv fs with
  | (Ok _, fs1) => export_loop wd rest (outs ++ [entry_of wd (sheet_title sh) csv]) fs1
  | (Raise e, fs1) => (Raise e, fs1)
  end.
Proof.
  intros Hcsv. simpl. rewrite Hcsv. unfold io_bind. fold (csv_file_of wd (sheet_title sh)).
  destruct (write_bytes _ csv fs) as [[[]|e] fs1] eqn:Ew; [|done].
  apply write_bytes_Ok in Ew as (_ & _ & Hc).
  rewrite sha256_file_run, Hc. done.
Qed.

(** The turn of the loop for a sheet that does not convert. *)
Lemma export_loop_stop (wd : path) (sh : sheet) (rest : list sheet)
    (outs : list OutputEntry) (fs : filesystem) :
  sheet_csv sh = None ->
  export_loop wd (sh :: rest) outs fs =
  match sheet_partial sh with
  | None => (Raise SheetExportError, fs)
  | Some written =>
      match write_bytes (csv_file_of wd (sheet_title sh)) written fs with
      | (Ok _, fs1) => (Raise SheetExportError, fs1)
      | (Raise e, fs1) => (Raise e, fs1)
      end
  end.
Proof.
  intros Hcsv. simpl. rewrite Hcsv. destruct (sheet_partial sh) as [written|]; [|done].
  unfold io_bind. fold (csv_file_of wd (sheet_title sh)).
  by destruct (write_bytes _ written fs) as [[[]|e] fs1].
Qed.

Lemma export_loop_stop_raises (wd : path) (sh : sheet) (rest : list sheet)
    (outs res : list OutputEntry) (fs fs' : filesystem) :
  sheet_csv sh = None -> export_loop wd (sh :: rest) outs fs <> (Ok res, fs').
Proof.
  intros Hcsv. rewrite export_loop_stop by done. destruct (sheet_partial sh); [|done].
  by destruct (write_bytes _ _ fs) as [[[]|e] fs1].
Qed.

(** A loop that completes has appended one entry per sheet, in sheet order. *)
Lemma export_loop_Ok (wd : path) (sheets : list sheet) (outs res : list OutputEntry)
    (fs fs' : filesystem) :
  export_loop wd sheets outs fs = (Ok res, fs') ->
  Forall (fun sh => is_Some (sheet_csv sh)) sheets /\
  res = outs ++ List.map (sheet_entry wd) sheets.
Proof.
  revert outs fs. induction sheets as [|sh rest IH]; intros outs fs.
  - simpl. intros [= <- _]. split; [constructor | by rewrite app_nil_r].
  - destruct (sheet_csv sh) as [csv|] eqn:Hcsv.
    2:{ intros Hrun. by apply export_loop_stop_raises in Hrun. }
    rewrite (export_loop_cons _ _ _ _ csv) by done.
    destruct (write_bytes _ csv fs) as [[[]|e] fs1]; [|done].
    intros (Hall & ->)%IH. split; [constructor; eauto|].
    rewrite <- app_assoc. simpl. unfold sheet_entry at 2. by rewrite Hcsv.
Qed.

(** Whether it completes or raises, the loop touches no file other than the
    CSV files of its sheets. *)
Lemma export_loop_others (wd : path) (sheets : list sheet) (outs : list OutputEntry)
    (fs fs' : filesystem) (r : result (list OutputEntry)) (k : pystr) :
  export_loop wd sheets outs fs = (r, fs') ->
  k ∉ List.map (sheet_target wd) sheets ->
  file_at fs' k = file_at fs k.
Proof.
  revert outs fs. induction sheets as [|sh rest IH]; intros outs fs.
  - simpl. by intros [= _ ->].
  - intros Hrun Hk. simpl in Hk. apply not_elem_of_cons in Hk as [Hk1 Hk2].
    destruct (sheet_csv sh) as [csv|] eqn:Hcsv.
    + rewrite (export_loop_cons _ _ _ _ csv) in Hrun by done.
      destruct (write_bytes _ csv fs) as [[[]|e] fs1] eqn:Ew.
      * rewrite (IH _ _ Hrun Hk2). by apply (write_bytes_others _ _ _ _ _ _ Ew).
      * injection Hrun as _ <-. by apply (write_bytes_others _ _ _ _ _ _ Ew).
    + rewrite export_loop_stop in Hrun by done.
      destruct (sheet_partial sh) as [written|]; [|by injection Hrun as _ <-].
      destruct (write_bytes _ written fs) as [[[]|e] fs1] eqn:Ew;
        injection Hrun as _ <-; by apply (write_bytes_others _ _ _ _ _ _ Ew).
Qed.

Lemma export_sheets_to_csv_Ok (excel_path outdir : path) (outs : list OutputEntry)
    (fs fs' : filesystem) :
  export_sheets_to_csv excel_path outdir fs = (Ok outs, fs') ->
  exists data xls,
    file_content fs excel_path = Some data /\
    excel_file data = Some xls /\
    Forall (fun sh => is_Some (sheet_csv sh)) xls /\
    outs = sorted (List.map (sheet_entry (path_div outdir (path_stem excel_path))) xls)
                  csv_path.
Proof.
  unfold export_sheets_to_csv. intros (data & fs1 & Hread & Hrun)%io_bind_Ok.
  apply read_bytes_Ok in Hread as [Hdata ->].
  destruct (excel_file data) as [xls|] eqn:Hxls; [|done].
  apply io_bind_Ok in Hrun as ([] & fs2 & _ & Hrun).
  apply io_bind_Ok in Hrun as (res & fs3 & Hloop & [= <- _]).
  apply export_loop_Ok in Hloop as [Hall ->].
  exists data, xls. by repeat split.
Qed.


End ExportSheets.

(** ** [main] *)

Section Main.
Context `{Runtime}.

(** [main] is [new_manifest] followed by the final [write_json]. *)
Lemma main_split (args : Namespace) (fs : filesystem) :
  main args fs =
  io_bind (new_manifest args) (write_json (path_of_str (arg_manifest args))) fs.
Proof.
  unfold main, new_manifest. cbv zeta. unfold io_bind, io_raise, io_ret, io_lift.
  destruct (path_exists _ fs) as [[found|e] fs1]; [|done].
  destruct (negb found); [done|].
  destruct (mkdir_parents _ fs1) as [[[]|e] fs2]; [|done].
  destruct (mkdir_parents _ fs2) as [[[]|e] fs3]; [|done].
  destruct (read_json _ fs3) as [[old|e] fs4]; [|done].
  destruct (sha256_file _ fs4) as [[sha|e] fs5]; [|done].
  destruct (export_sheets_to_csv _ _ fs5) as [[outs|e] fs6]; [|done].
  by destruct (next_version old sha).
Qed.


(** What a run that reaches the final write has read and computed. *)
Lemma new_manifest_Ok (args : Namespace) (fs fs' : filesystem) (d : json) :
  new_manifest args fs = (Ok d, fs') ->
  let excel_path := path_of_str (arg_excel args) in
  let outdir := path_of_str (arg_outdir args) in
  let manifest_path := path_of_str (arg_manifest args) in
  exists data xls old v,
    file_content fs excel_path = Some data /\
    excel_file data = Some xls /\
    Forall (fun sh => is_Some (sheet_csv sh)) xls /\
    match file_content fs manifest_path with
    | Some _ => stored_manifest fs manifest_path = Some old
    | None => old = JObj []
    end /\
    next_version old (Sha256.hexdigest data) = Ok v /\
    d = build_manifest excel_path outdir manifest_path
          (sorted (List.map (sheet_entry (workbook_dir_of args)) xls) csv_path)
          (Sha256.hexdigest data) v.
Proof.
  unfold new_manifest. cbv zeta. rewrite (io_bind_step _ _ _ _ _ (path_exists_run _ _)).
  destruct (negb _); [done|].
  intros ([] & fs2 & Hmk1 & Hrun)%io_bind_Ok.
  apply io_bind_Ok in Hrun as ([] & fs3 & Hmk2 & Hrun).
  assert (forall p, file_content fs3 p = file_content fs p) as Hsame.
  { intros p. apply file_content_agree. rewrite (mkdir_parents_files _ _ _ _ Hmk2).
    by apply (mkdir_parents_files _ _ _ _ Hmk1). }
  apply io_bind_Ok in Hrun as (old & fs4 & Hread & Hrun).
  pose proof (read_json_state _ _ _ _ Hread) as ->.
  apply io_bind_Ok in Hrun as (sha & fs5 & Hsha & Hrun).
  pose proof (sha256_file_state _ _ _ _ Hsha) as ->.
  apply io_bind_Ok in Hrun as (outs & fs6 & Hexp & Hrun).
  apply io_bind_Ok in Hrun as (v & fs7 & Hver & [= <- _]).
  injection Hver as Hver _.
  apply export_sheets_to_csv_Ok in Hexp as (data & xls & Hdata & Hxls & Hall & ->).
  rewrite sha256_file_run, Hdata in Hsha. injection Hsha as <-.
  rewrite Hsame in Hdata.
  exists data, xls, old, v. repeat split; try done.
  rewrite read_json_run in Hread.
  unfold stored_manifest. rewrite <- (Hsame (path_of_str (arg_manifest args))).
  unfold file_content.
  destruct (node_at fs3 _) as [[b|]|]; [|done|by injection Hread as <-].
  destruct (utf8_decode b) as [t|]; [|done].
  destruct (json_loads t); [by injection Hread as <-|done].
Qed.

End Main.

(** ** The manifest document [build_manifest] returns *)

Section Manifest.
Context `{Runtime}.

Lemma build_manifest_is_doc (e o mp : path) (outs : list OutputEntry) (sha : pystr) (v : Z) :
  is_manifest_doc (build_manifest e o mp outs sha v) = true.
Proof. reflexivity. Qed.

Lemma build_manifest_version (e o mp : path) (outs : list OutputEntry) (sha : pystr) (v : Z) :
  recorded_version (build_manifest e o mp outs sha v) = v.
Proof. reflexivity. Qed.

Lemma build_manifest_sha (e o mp : path) (outs : list OutputEntry) (sha : pystr) (v : Z) :
  recorded_sha (build_manifest e o mp outs sha v) = sha.
Proof. reflexivity. Qed.

Lemma build_manifest_csv_paths (e o mp : path) (outs : list OutputEntry) (sha : pystr) (v : Z) :
  manifest_csv_paths (build_manifest e o mp outs sha v) = List.map csv_path outs.
Proof.
  unfold manifest_csv_paths.
  change (manifest_output (build_manifest e o mp outs sha v)) with (List.map to_dict outs).
  rewrite List.map_map. apply map_ext. reflexivity.
Qed.

End Manifest.

(** C1. The versioning rule.  On a previous manifest document the new version
    is the recorded version plus one when the recorded source hash differs
    from the new hash, and the recorded version when they are equal (a
    missing version counts as 0, a missing hash as the empty string).  A run
    that finds nothing at the manifest path and completes computes a manifest
    with version 1. *)
Theorem next_version_rule `{Runtime} :
  (forall (m : json) (h : pystr),
     is_manifest_doc m = true ->
     next_version m h =
     Ok (if bool_decide (recorded_sha m = h) then recorded_version m
         else recorded_version m + 1)%Z) /\
  (forall (args : Namespace) (fs fs' : filesystem) (d : json),
     node_at fs (path_of_str (arg_manifest args)) = None ->
     new_manifest args fs = (Ok d, fs') ->
     recorded_version d = 1%Z).
Proof.
  split.
  - intros m h Hdoc. by rewrite next_version_doc.
  - intros args fs fs' d Habsent Hrun.
    apply new_manifest_Ok in Hrun as (data & xls & old & v & _ & _ & _ & Hold & Hv & ->).
    unfold file_content in Hold. rewrite Habsent in Hold. subst old.
    rewrite build_manifest_version.
    rewrite next_version_doc in Hv by done.
    change (recorded_sha (JObj [])) with (@nil char) in Hv.
    change (recorded_version (JObj [])) with 0%Z in Hv.
    rewrite (proj2 (str_eqb_neq [] _)) in Hv; [by injection Hv as <-|].
    intros E. by apply (hexdigest_nonempty data).
Qed.

(** Beyond manifest documents: whenever [next_version] returns, its result is
    at least the integer [int] reads from the [version] field. *)
Lemma next_version_ge_int `{Runtime} (m : json) (h : pystr) (v : Z) :
  next_version m h = Ok v ->
  exists old,
    rbind (py_get m (py "version") (JInt 0)) py_int = Ok old /\ (old <= v)%Z.
Proof.
  intros (old & Hold & Hv)%next_version_range. exists old. split; [done | lia].
Qed.

(** C10. The version never goes down.  On a previous manifest document
    [next_version] returns a version at least the recorded one (0 when the
    field is missing); on any document at all, a version it returns is at
    least the integer [int] reads from the [version] field. *)
Theorem next_version_monotone `{Runtime} (m : json) (h : pystr) :
  (is_manifest_doc m = true ->
   exists v, next_version m h = Ok v /\ (recorded_version m <= v)%Z) /\
  (forall v, next_version m h = Ok v ->
   exists old,
     rbind (py_get m (py "version") (JInt 0)) py_int = Ok old /\ (old <= v)%Z).
Proof.
  split.
  - intros Hdoc. rewrite next_version_doc by done.
    eexists. split; [done|]. destruct (str_eqb _ _); lia.
  - intros v. apply next_version_ge_int.
Qed.

(** C9. The manifest builder is a function of the version, the POSIX forms of
    the output directory and of the source path, the new source hash and the
    output entries: two calls that agree on these return equal documents,
    whatever manifest paths they are given.  The previous manifest is not
    among its parameters. *)
Theorem build_manifest_depends_on `{Runtime}
    (excel1 excel2 outdir1 outdir2 manifest1 manifest2 : path)
    (outputs : list OutputEntry) (excel_sha : pystr) (version : Z) :
  as_posix excel1 = as_posix excel2 ->
  as_posix outdir1 = as_posix outdir2 ->
  build_manifest excel1 outdir1 manifest1 outputs excel_sha version =
  build_manifest excel2 outdir2 manifest2 outputs excel_sha version.
Proof. unfold build_manifest. by intros -> ->. Qed.

(** ** [sorted] *)

Section Sorting.
Context {A : Type} (key : A -> pystr).

Lemma insert_by_perm (x : A) (l : list A) : Permutation (insert_by key x l) (x :: l).
Proof.
  induction l as [|y l IH]; simpl; [done|].
  destruct (str_leb (key x) (key y)); [done|].
  rewrite IH. apply perm_swap.
Qed.

Lemma sorted_perm (l : list A) : Permutation (sorted l key) l.
Proof.
  unfold sorted. induction l as [|x l IH]; simpl; [done|].
  rewrite insert_by_perm. by constructor.
Qed.

Lemma insert_by_sorted (x : A) (l : list A) :
  StronglySorted (key_le key) l -> StronglySorted (key_le key) (insert_by key x l).
Proof.
  induction 1 as [|y l Hl IH Hy]; simpl; [repeat constructor|].
  destruct (str_leb (key x) (key y)) eqn:E.
  - constructor; [by constructor|]. constructor; [exact E|].
    eapply Forall_impl; [exact Hy|]. intros z Hz. by eapply str_leb_trans.
  - constructor; [exact IH|].
    rewrite insert_by_perm. constructor; [|exact Hy].
    destruct (str_leb_total (key x) (key y)); [congruence | done].
Qed.

Lemma sorted_sorted (l : list A) : StronglySorted (key_le key) (sorted l key).
Proof.
  unfold sorted. induction l as [|x l IH]; simpl; [constructor|].
  by apply insert_by_sorted.
Qed.

(** A list already in order is left as it is. *)
Lemma sorted_fixpoint (l : list A) : StronglySorted (key_le key) l -> sorted l key = l.
Proof.
  unfold sorted. induction 1 as [|x l Hl IH Hx]; simpl; [done|].
  rewrite IH. destruct l as [|y l']; simpl; [done|].
  apply Forall_cons in Hx as [Hxy _]. unfold key_le in Hxy. by rewrite Hxy.
Qed.

(** With pairwise distinct keys the result does not depend on the order of
    the input. *)
Lemma sorted_unique_perm (l1 l2 : list A) :
  NoDup (List.map key l1) -> Permutation l1 l2 -> sorted l1 key = sorted l2 key.
Proof.
  intros Hnd Hperm.
  assert (forall s1 s2 : list A,
    NoDup (List.map key s1) -> Permutation s1 s2 ->
    StronglySorted (key_le key) s1 -> StronglySorted (key_le key) s2 -> s1 = s2) as Huniq.
  { clear. induction s1 as [|x s1 IH]; intros s2 Hnd Hp Hs1 Hs2.
    - by apply Permutation_nil in Hp.
    - destruct s2 as [|y s2]; [by apply Permutation_sym, Permutation_nil in Hp|].
      apply StronglySorted_inv in Hs1 as [Hs1 Hx].
      apply StronglySorted_inv in Hs2 as [Hs2 Hy].
      simpl in Hnd. apply NoDup_cons in Hnd as [Hnx Hnd].
      assert (x = y) as <-.
      { assert (x ∈ y :: s2) as Hxin by (rewrite <- Hp; apply list_elem_of_here).
        assert (y ∈ x :: s1) as Hyin by (rewrite Hp; apply list_elem_of_here).
        apply elem_of_cons in Hxin as [?|Hxin]; [done|].
        apply elem_of_cons in Hyin as [?|Hyin]; [done|]. exfalso.
        rewrite List.Forall_forall in Hx, Hy.
        apply list_elem_of_In in Hxin, Hyin.
        pose proof (str_leb_antisym _ _ (Hx _ Hyin) (Hy _ Hxin)) as Ek.
        apply Hnx. rewrite Ek. apply list_elem_of_In, in_map, Hyin. }
      f_equal. apply IH; try done. by apply Permutation_cons_inv in Hp. }
  apply Huniq; [| |apply sorted_sorted..].
  - by rewrite sorted_perm.
  - rewrite (sorted_perm l1), (sorted_perm l2). exact Hperm.
Qed.

End Sorting.

(** ** Paths of the CSV files *)

Section CsvPaths.
Context `{Runtime}.

Lemma keep_not_slash (c : char) : keep c = true -> c <> SLASH.
Proof. intros Hk ->. by vm_compute in Hk. Qed.

(** Every character of a stem is alphanumeric, [-] or [_]. *)
Lemma safe_filename_chars (name : pystr) :
  Forall (fun c => keep c = true) (safe_filename name).
Proof.
  rewrite safe_filename_unfold. cbv zeta.
  destruct (negb _).
  - apply List.Forall_forall. intros c Hc%list_elem_of_In%strip_subseteq%list_elem_of_In.
    apply in_map_iff in Hc as (c0 & <- & _). apply keep_clean_char.
  - by repeat constructor.
Qed.

Lemma split_slash_no_slash (s cur : pystr) :
  Forall (fun c => c <> SLASH) s -> split_slash s cur = [rev cur ++ s].
Proof.
  revert cur. induction s as [|c s IH]; intros cur Hs; simpl.
  - by rewrite app_nil_r.
  - apply Forall_cons in Hs as [Hc Hs].
    rewrite (proj2 (N.eqb_neq c SLASH)) by done.
    rewrite IH by done. simpl. by rewrite <- app_assoc.
Qed.

(** The file name [<stem>.csv] is a single path component. *)
Lemma path_of_csv_name (stem : pystr) :
  Forall (fun c => keep c = true) stem ->
  path_of_str (stem ++ py ".csv") = Path [] [stem ++ py ".csv"].
Proof.
  intros Hstem. unfold path_of_str.
  assert (Forall (fun c => c <> SLASH) (stem ++ py ".csv")) as Hns.
  { apply Forall_app. split.
    - eapply Forall_impl; [exact Hstem|]. intros c. apply keep_not_slash.
    - repeat constructor; by vm_compute. }
  rewrite split_slash_no_slash by done. simpl. f_equal.
  - destruct (stem ++ py ".csv") as [|c r]; [done|].
    apply Forall_cons in Hns as [Hc _]. unfold parse_anchor.
    destruct c as [|p]; [done|]. do 6 (destruct p as [p|p|]; try done).
  - unfold proper_part. rewrite !(proj2 (str_eqb_neq _ _)); [done| |].
    + intros E. apply (f_equal length) in E. rewrite length_app in E. simpl in E. lia.
    + intros E. apply (f_equal length) in E. rewrite length_app in E. simpl in E. lia.
Qed.

Lemma join_slash_snoc (cs : list pystr) (c : pystr) :
  join_slash (cs ++ [c]) = concat (List.map (fun x => x ++ [SLASH]) cs) ++ c.
Proof.
  induction cs as [|x cs IH]; simpl; [done|].
  destruct (cs ++ [c]) as [|y r] eqn:E; [by destruct cs|].
  rewrite IH. by rewrite <- !app_assoc.
Qed.

Lemma as_posix_snoc (a : pystr) (cs : list pystr) (c : pystr) :
  as_posix (Path a (cs ++ [c])) = a ++ join_slash (cs ++ [c]).
Proof.
  unfold as_posix. cbn [anchor parts].
  destruct a; [|done]. destruct (cs ++ [c]) eqn:E; [by destruct cs | done].
Qed.

(** The POSIX form of a CSV file is that of its directory followed by the
    file name. *)
Lemma csv_file_posix (wd : path) (title : pystr) :
  as_posix (csv_file_of wd title) =
  (anchor wd ++ concat (List.map (fun x => x ++ [SLASH]) (parts wd)))
  ++ safe_filename title ++ py ".csv".
Proof.
  unfold csv_file_of, path_div. rewrite path_of_csv_name by apply safe_filename_chars.
  unfold joinpath. cbn [anchor parts]. by rewrite as_posix_snoc, join_slash_snoc, app_assoc.
Qed.

(** Two sheets are written to the same file exactly when their names have
    the same stem. *)
Lemma csv_file_posix_inj (wd : path) (t1 t2 : pystr) :
  as_posix (csv_file_of wd t1) = as_posix (csv_file_of wd t2) <->
  safe_filename t1 = safe_filename t2.
Proof.
  rewrite !csv_file_posix. split.
  - intros E%app_inv_head. by apply app_inv_tail in E.
  - by intros ->.
Qed.

Lemma NoDup_sheet_targets (wd : path) (xls : list sheet) :
  NoDup (List.map (sheet_target wd) xls) <->
  NoDup (List.map (fun sh => safe_filename (sheet_title sh)) xls).
Proof.
  induction xls as [|sh xls IH]; simpl; [split; constructor|].
  rewrite !NoDup_cons, IH.
  assert (sheet_target wd sh ∈ List.map (sheet_target wd) xls <->
          safe_filename (sheet_title sh)
            ∈ List.map (fun sh => safe_filename (sheet_title sh)) xls) as Hin.
  { rewrite !list_elem_of_In, !in_map_iff. unfold sheet_target.
    split; intros (sh' & E & Hin); exists sh'; (split; [|done]).
    - by apply (csv_file_posix_inj wd).
    - by apply csv_file_posix_inj. }
  by rewrite Hin.
Qed.

End CsvPaths.

(** ** The manifest a run writes *)

Section Written.
Context `{Runtime}.

(** A run that completes has computed a manifest and stored its JSON text at
    the manifest path. *)
Lemma main_Ok (args : Namespace) (fs fs2 : filesystem) :
  main args fs = (Ok tt, fs2) ->
  exists d fs1 b,
    new_manifest args fs = (Ok d, fs1) /\
    utf8_encode (json_dumps d ++ [NEWLINE]) = Some b /\
    file_content fs2 (path_of_str (arg_manifest args)) = Some b.
Proof.
  rewrite main_split. intros (d & fs1 & Hnew & Hw)%io_bind_Ok.
  apply write_json_Ok in Hw as (b & Hb & Hfile). by exists d, fs1, b.
Qed.

Lemma StronglySorted_map {A B} (R : B -> B -> Prop) (f : A -> B) (l : list A) :
  StronglySorted (fun a b => R (f a) (f b)) l -> StronglySorted R (List.map f l).
Proof.
  induction 1 as [|x l Hl IH Hx]; simpl; constructor; [done|].
  by apply List.Forall_map.
Qed.

End Written.

(** C2, as the code has it.  The [csv_path] values of the manifest a run
    writes are pairwise distinct exactly when the names of the workbook's
    sheets sanitize to pairwise distinct stems. *)
Theorem csv_paths_distinct_iff `{Runtime} (args : Namespace) (fs fs2 : filesystem) :
  main args fs = (Ok tt, fs2) ->
  exists d fs1 b,
    new_manifest args fs = (Ok d, fs1) /\
    utf8_encode (json_dumps d ++ [NEWLINE]) = Some b /\
    file_content fs2 (path_of_str (arg_manifest args)) = Some b /\
    (NoDup (manifest_csv_paths d) <-> NoDup (workbook_stems args fs)).
Proof.
  intros (d & fs1 & b & Hnew & Hb & Hfile)%main_Ok.
  exists d, fs1, b. repeat split; try done;
    apply new_manifest_Ok in Hnew as (data & xls & old & v & Hdata & Hxls & _ & _ & _ & ->);
    rewrite build_manifest_csv_paths;
    unfold workbook_stems, workbook_sheets; rewrite Hdata, Hxls;
    rewrite <- (NoDup_sheet_targets (workbook_dir_of args)).
  - intros Hnd. rewrite sorted_perm, List.map_map in Hnd. exact Hnd.
  - intros Hnd. rewrite sorted_perm, List.map_map. exact Hnd.
Qed.

(** C6. The entries the exporter returns are in ascending order of
    [csv_path], and so are the [csv_path] values of the [output] array of the
    manifest, whatever the order of the sheets in the workbook. *)
Theorem outputs_sorted_by_csv_path `{Runtime} :
  (forall (excel_path outdir : path) (fs fs' : filesystem) (outs : list OutputEntry),
     export_sheets_to_csv excel_path outdir fs = (Ok outs, fs') ->
     StronglySorted (key_le csv_path) outs) /\
  (forall (args : Namespace) (fs fs' : filesystem) (d : json),
     new_manifest args fs = (Ok d, fs') ->
     StronglySorted (fun a b => str_leb a b = true) (manifest_csv_paths d)).
Proof.
  split.
  - intros excel_path outdir fs fs' outs
      (data & xls & _ & _ & _ & ->)%export_sheets_to_csv_Ok.
    apply sorted_sorted.
  - intros args fs fs' d
      (data & xls & old & v & _ & _ & _ & _ & _ & ->)%new_manifest_Ok.
    rewrite build_manifest_csv_paths. apply StronglySorted_map, sorted_sorted.
Qed.

(** The exporter returns one entry per sheet, and, when no two sheets share
    a stem, the same list for any order of the sheets. *)
Lemma export_entries `{Runtime} (excel_path outdir : path) (fs fs' : filesystem)
    (outs : list OutputEntry) :
  export_sheets_to_csv excel_path outdir fs = (Ok outs, fs') ->
  exists data xls,
    file_content fs excel_path = Some data /\ excel_file data = Some xls /\
    Permutation outs
      (List.map (sheet_entry (path_div outdir (path_stem excel_path))) xls).
Proof.
  intros (data & xls & Hdata & Hxls & _ & ->)%export_sheets_to_csv_Ok.
  exists data, xls. repeat split; try done. apply sorted_perm.
Qed.

Lemma export_order_independent `{Runtime} (wd : path) (xls1 xls2 : list sheet) :
  Permutation xls1 xls2 ->
  NoDup (List.map (fun sh => safe_filename (sheet_title sh)) xls1) ->
  sorted (List.map (sheet_entry wd) xls1) csv_path =
  sorted (List.map (sheet_entry wd) xls2) csv_path.
Proof.
  intros Hperm Hnd. apply sorted_unique_perm; [|by apply Permutation_map].
  rewrite List.map_map. by apply (NoDup_sheet_targets wd).
Qed.

(** ** Failures and the manifest file *)

Section Failures.
Context `{Runtime}.

(** A manifest file that does not read as JSON stops [new_manifest] before
    anything is exported, and no regular file has changed by then. *)
Lemma new_manifest_malformed (args : Namespace) (fs : filesystem) (b : bytes) :
  let manifest_path := path_of_str (arg_manifest args) in
  file_content fs manifest_path = Some b ->
  stored_manifest fs manifest_path = None ->
  exists e fs',
    new_manifest args fs = (Raise e, fs') /\
    (forall k, file_at fs' k = file_at fs k) /\
    (forall fs1 fs2,
       is_Some (node_at fs (path_of_str (arg_excel args))) ->
       mkdir_parents (path_of_str (arg_outdir args)) fs = (Ok tt, fs1) ->
       mkdir_parents (path_parent manifest_path) fs1 = (Ok tt, fs2) ->
       fs' = fs2 /\ (e = JSONDecodeError \/ e = UnicodeDecodeError)).
Proof.
  cbv zeta. set (mp := path_of_str (arg_manifest args)).
  intros Hfile Hbad. unfold new_manifest. cbv zeta. fold mp.
  rewrite (io_bind_step _ _ _ _ _ (path_exists_run _ _)).
  destruct (bool_decide _) eqn:Hfound; cbn [negb].
  2:{ eexists _, fs. split; [reflexivity|]. split; [done|].
      intros fs1 fs2 Hsome. by apply bool_decide_eq_false in Hfound. }
  destruct (mkdir_parents (path_of_str (arg_outdir args)) fs) as [[[]|e1] fs1] eqn:Hmk1.
  2:{ exists e1, fs1. rewrite (io_bind_fail _ _ _ _ _ Hmk1). split; [done|].
      split; [by apply (mkdir_parents_files _ _ _ _ Hmk1)|]. by intros ? ? _ [=]. }
  rewrite (io_bind_step _ _ _ _ _ Hmk1).
  destruct (mkdir_parents (path_parent mp) fs1) as [[[]|e2] fs2] eqn:Hmk2.
  2:{ exists e2, fs2. rewrite (io_bind_fail _ _ _ _ _ Hmk2). split; [done|]. split.
      - intros k. rewrite (mkdir_parents_files _ _ _ _ Hmk2).
        by apply (mkdir_parents_files _ _ _ _ Hmk1).
      - intros ? ? _ [= <-] Hm. by rewrite Hmk2 in Hm. }
  rewrite (io_bind_step _ _ _ _ _ Hmk2).
  assert (forall k, file_at fs2 k = file_at fs k) as Hsame.
  { intros k. rewrite (mkdir_parents_files _ _ _ _ Hmk2).
    by apply (mkdir_parents_files _ _ _ _ Hmk1). }
  assert (file_content fs2 mp = Some b) as Hfile2.
  { rewrite <- Hfile. apply file_content_agree, Hsame. }
  assert (exists e, read_json mp fs2 = (Raise e, fs2) /\
                    (e = JSONDecodeError \/ e = UnicodeDecodeError)) as (e & Hread & He).
  { rewrite read_json_run. apply file_content_node in Hfile2 as ->.
    unfold stored_manifest in Hbad. rewrite Hfile in Hbad.
    destruct (utf8_decode b) as [t|]; [|eauto].
    rewrite Hbad. eauto. }
  exists e, fs2. rewrite (io_bind_fail _ _ _ _ _ Hread). split; [done|]. split; [done|].
  intros ? ? _ [= <-] Hm. rewrite Hmk2 in Hm. by injection Hm as <-.
Qed.

End Failures.

(** C7. A manifest file that exists but does not hold valid JSON makes
    [read_json] raise, the exception aborts the run, and the file is left as
    it was; [read_json] returns the empty document by default only when
    nothing exists at the path. *)
Theorem malformed_manifest_is_fatal `{Runtime} :
  (forall (p : path) (fs : filesystem) (b : bytes),
     file_content fs p = Some b -> stored_manifest fs p = None ->
     exists e, read_json p fs = (Raise e, fs) /\
               (e = JSONDecodeError \/ e = UnicodeDecodeError)) /\
  (forall (p : path) (fs fs' : filesystem) (d : json),
     read_json p fs = (Ok d, fs') ->
     (node_at fs p = None /\ d = JObj []) \/
     (exists b, file_content fs p = Some b /\ stored_manifest fs p = Some d)) /\
  (forall (p : path) (fs : filesystem),
     node_at fs p = None -> read_json p fs = (Ok (JObj []), fs)) /\
  (forall (args : Namespace) (fs : filesystem) (b : bytes),
     let manifest_path := path_of_str (arg_manifest args) in
     file_content fs manifest_path = Some b ->
     stored_manifest fs manifest_path = None ->
     exists e fs',
       main args fs = (Raise e, fs') /\
       file_content fs' manifest_path = Some b /\
       (forall fs1 fs2,
          is_Some (node_at fs (path_of_str (arg_excel args))) ->
          mkdir_parents (path_of_str (arg_outdir args)) fs = (Ok tt, fs1) ->
          mkdir_parents (path_parent manifest_path) fs1 = (Ok tt, fs2) ->
          e = JSONDecodeError \/ e = UnicodeDecodeError)).
Proof.
  repeat split.
  - intros p fs b Hfile Hbad. rewrite read_json_run.
    apply file_content_node in Hfile as Hnode. rewrite Hnode.
    unfold stored_manifest in Hbad. rewrite Hfile in Hbad.
    destruct (utf8_decode b) as [t|]; [|eauto]. rewrite Hbad. eauto.
  - intros p fs fs' d. rewrite read_json_run. unfold stored_manifest, file_content.
    destruct (node_at fs p) as [[b|]|]; [|done|intros [= <- _]; by left].
    destruct (utf8_decode b) as [t|] eqn:Et; [|done].
    destruct (json_loads t) as [d'|] eqn:Ed; [|done].
    intros [= <- _]. right. by exists b.
  - intros p fs Hnone. rewrite read_json_run. by rewrite Hnone.
  - intros args fs b mp Hfile Hbad.
    destruct (new_manifest_malformed args fs b Hfile Hbad) as (e & fs' & Hrun & Hsame & He).
    exists e, fs'. rewrite main_split, (io_bind_fail _ _ _ _ _ Hrun).
    split; [done|]. split.
    + rewrite <- Hfile. apply file_content_agree, Hsame.
    + intros fs1 fs2 Hsome Hmk1 Hmk2. by destruct (He fs1 fs2 Hsome Hmk1 Hmk2).
Qed.


(** ** Running again *)

Section Rerun.
Context `{Runtime}.

Lemma same_dirs_refl (fs : filesystem) : same_dirs fs fs.
Proof. by intros k. Qed.

Lemma same_dirs_trans (fs1 fs2 fs3 : filesystem) :
  same_dirs fs1 fs2 -> same_dirs fs2 fs3 -> same_dirs fs1 fs3.
Proof. intros H12 H23 k. by rewrite (H12 k). Qed.

Lemma same_dirs_kept (fs fs' : filesystem) : same_dirs fs fs' -> dirs_kept fs fs'.
Proof. intros Hs k. by apply Hs. Qed.

Lemma dirs_kept_trans (fs1 fs2 fs3 : filesystem) :
  dirs_kept fs1 fs2 -> dirs_kept fs2 fs3 -> dirs_kept fs1 fs3.
Proof. intros H12 H23 k Hk. by apply H23, H12. Qed.

Lemma node_at_dir_same (fs fs' : filesystem) (p : path) :
  same_dirs fs fs' -> node_at fs p = Some Dir <-> node_at fs' p = Some Dir.
Proof. intros Hs. unfold node_at. destruct (parts p); [done | apply Hs]. Qed.

Lemma node_at_dir_kept (fs fs' : filesystem) (p : path) :
  dirs_kept fs fs' -> node_at fs p = Some Dir -> node_at fs' p = Some Dir.
Proof. intros Hs. unfold node_at. destruct (parts p); [done | apply Hs]. Qed.

(** A write succeeds exactly when its target is not a directory and the
    parent of the target is one. *)
Lemma write_bytes_runs (p : path) (data : bytes) (fs : filesystem) :
  node_at fs p <> Some Dir -> node_at fs (path_parent p) = Some Dir ->
  write_bytes p data fs = (Ok tt, <[as_posix p := File data]> fs).
Proof.
  intros Hp Hparent. unfold write_bytes. rewrite Hparent.
  by destruct (node_at fs p) as [[]|].
Qed.

Lemma write_bytes_Ok_inv (p : path) (data : bytes) (fs fs' : filesystem) :
  write_bytes p data fs = (Ok tt, fs') ->
  node_at fs p <> Some Dir /\ node_at fs (path_parent p) = Some Dir.
Proof.
  unfold write_bytes.
  destruct (node_at fs p) as [[]|]; try done;
    by destruct (node_at fs (path_parent p)) as [[]|].
Qed.

Lemma write_bytes_same_dirs (p : path) (data : bytes) (fs fs' : filesystem) :
  write_bytes p data fs = (Ok tt, fs') -> same_dirs fs fs'.
Proof.
  intros Hw. pose proof (write_bytes_Ok_inv _ _ _ _ Hw) as [Hp _].
  apply write_bytes_Ok in Hw as (-> & Hparts & _). intros k.
  destruct (decide (as_posix p = k)) as [<-|Hne].
  - rewrite lookup_insert_eq. unfold node_at in Hp.
    destruct (parts p); [done|]. split; [done | congruence].
  - by rewrite lookup_insert_ne.
Qed.

(** [mkdir]: directories are never removed; after a successful call the
    whole chain exists; on an existing chain the call changes nothing. *)
Lemma mkdir_chain_dirs_kept (a : pystr) (above todo : list pystr)
    (fs fs' : filesystem) (r : result unit) :
  mkdir_chain a above todo fs = (r, fs') -> dirs_kept fs fs'.
Proof.
  revert above fs. induction todo as [|c rest IH]; intros above fs; simpl.
  - by intros [= _ ->] k.
  - destruct (fs !! as_posix (Path a (above ++ [c]))) as [[b|]|] eqn:E.
    + by intros [= _ ->] k.
    + apply IH.
    + intros Hrun k Hk. apply (IH _ _ Hrun).
      destruct (decide (as_posix (Path a (above ++ [c])) = k)) as [<-|Hne];
        [by rewrite lookup_insert_eq | by rewrite lookup_insert_ne].
Qed.

Lemma chain_dirs_kept (a : pystr) (above todo : list pystr) (fs fs' : filesystem) :
  dirs_kept fs fs' -> chain_dirs a above todo fs -> chain_dirs a above todo fs'.
Proof.
  intros Hk. revert above. induction todo as [|c rest IH]; intros above; simpl; [done|].
  intros [Hc Hrest]. split; [by apply Hk | by apply IH].
Qed.

Lemma dirs_exist_kept (fs fs' : filesystem) (p : path) :
  dirs_kept fs fs' -> dirs_exist p fs -> dirs_exist p fs'.
Proof. apply chain_dirs_kept. Qed.

Lemma mkdir_chain_Ok_dirs (a : pystr) (above todo : list pystr) (fs fs' : filesystem) :
  mkdir_chain a above todo fs = (Ok tt, fs') -> chain_dirs a above todo fs'.
Proof.
  revert above fs. induction todo as [|c rest IH]; intros above fs; simpl; [done|].
  destruct (fs !! as_posix (Path a (above ++ [c]))) as [[b|]|] eqn:E; [done| |].
  - intros Hrun. split; [|by apply (IH _ _ Hrun)].
    by apply (mkdir_chain_dirs_kept _ _ _ _ _ _ Hrun).
  - intros Hrun. split; [|by apply (IH _ _ Hrun)].
    apply (mkdir_chain_dirs_kept _ _ _ _ _ _ Hrun). by rewrite lookup_insert_eq.
Qed.

Lemma mkdir_chain_noop (a : pystr) (above todo : list pystr) (fs : filesystem) :
  chain_dirs a above todo fs -> mkdir_chain a above todo fs = (Ok tt, fs).
Proof.
  revert above. induction todo as [|c rest IH]; intros above; simpl; [done|].
  intros [-> Hrest]. by apply IH.
Qed.

Lemma chain_dirs_last (a : pystr) (above todo : list pystr) (fs : filesystem) :
  chain_dirs a above todo fs -> todo <> [] ->
  fs !! as_posix (Path a (above ++ todo)) = Some Dir.
Proof.
  revert above. induction todo as [|c rest IH]; intros above; [done|].
  simpl. intros [Hc Hrest] _. destruct rest as [|c' rest']; [done|].
  replace (above ++ c :: c' :: rest') with ((above ++ [c]) ++ c' :: rest')
    by (by rewrite <- app_assoc).
  by apply IH.
Qed.

Lemma dirs_exist_node (p : path) (fs : filesystem) :
  dirs_exist p fs -> node_at fs p = Some Dir.
Proof.
  unfold dirs_exist, node_at. intros Hc. destruct p as [a ps]. simpl in *.
  destruct ps as [|c ps]; [done|].
  by apply (chain_dirs_last a [] (c :: ps)).
Qed.

Lemma mkdir_parents_Ok_dirs (p : path) (fs fs' : filesystem) :
  mkdir_parents p fs = (Ok tt, fs') -> dirs_exist p fs' /\ dirs_kept fs fs'.
Proof.
  intros Hrun. split; [by apply (mkdir_chain_Ok_dirs _ _ _ _ _ Hrun)|].
  by apply (mkdir_chain_dirs_kept _ _ _ _ _ _ Hrun).
Qed.

Lemma mkdir_parents_noop (p : path) (fs : filesystem) :
  dirs_exist p fs -> mkdir_parents p fs = (Ok tt, fs).
Proof. apply mkdir_chain_noop. Qed.

Lemma csv_file_parent (wd : path) (title : pystr) :
  path_parent (csv_file_of wd title) = wd.
Proof.
  unfold csv_file_of, path_div. rewrite path_of_csv_name by apply safe_filename_chars.
  unfold joinpath, path_parent. cbn [anchor parts]. rewrite removelast_last.
  by destruct wd.
Qed.

(** A loop that completed wrote to paths that are not directories, under a
    directory that exists, and created or removed no directory. *)
Lemma export_loop_Ok_dirs (wd : path) (sheets : list sheet) (outs res : list OutputEntry)
    (fs fs' : filesystem) :
  export_loop wd sheets outs fs = (Ok res, fs') ->
  same_dirs fs fs' /\
  Forall (fun sh => node_at fs (csv_file_of wd (sheet_title sh)) <> Some Dir) sheets /\
  (sheets <> [] -> node_at fs wd = Some Dir).
Proof.
  revert outs fs. induction sheets as [|sh rest IH]; intros outs fs.
  - simpl. intros [= _ <-]. split; [apply same_dirs_refl|]. by split.
  - destruct (sheet_csv sh) as [csv|] eqn:Hcsv;
      [|intros Hrun; by apply export_loop_stop_raises in Hrun].
    rewrite (export_loop_cons _ _ _ _ csv) by done.
    destruct (write_bytes _ csv fs) as [[[]|e] fs1] eqn:Ew; [|done].
    intros (Hsame & Hall & _)%IH.
    pose proof (write_bytes_same_dirs _ _ _ _ Ew) as Hw.
    pose proof (write_bytes_Ok_inv _ _ _ _ Ew) as [Htarget Hparent].
    rewrite csv_file_parent in Hparent.
    split; [by eapply same_dirs_trans|]. split; [|done].
    constructor; [done|]. eapply Forall_impl; [exact Hall|].
    intros sh' Hsh' Hdir. apply Hsh'. by apply (node_at_dir_same fs fs1).
Qed.

(** Conversely the loop completes whenever every sheet converts, the
    workbook directory exists and no target is a directory. *)
Lemma export_loop_runs (wd : path) (sheets : list sheet) (outs : list OutputEntry)
    (fs : filesystem) :
  Forall (fun sh => is_Some (sheet_csv sh)) sheets ->
  Forall (fun sh => node_at fs (csv_file_of wd (sheet_title sh)) <> Some Dir) sheets ->
  node_at fs wd = Some Dir ->
  exists fs',
    export_loop wd sheets outs fs = (Ok (outs ++ List.map (sheet_entry wd) sheets), fs') /\
    same_dirs fs fs'.
Proof.
  revert outs fs. induction sheets as [|sh rest IH]; intros outs fs Hcsv Htargets Hwd.
  - exists fs. simpl. rewrite app_nil_r. split; [done | apply same_dirs_refl].
  - apply Forall_cons in Hcsv as [[csv Hsh] Hcsv].
    apply Forall_cons in Htargets as [Htarget Htargets].
    rewrite (export_loop_cons _ _ _ _ csv) by done.
    rewrite write_bytes_runs; [|done|by rewrite csv_file_parent].
    set (fs1 := <[_ := _]> fs).
    assert (same_dirs fs fs1) as Hsame.
    { apply (write_bytes_same_dirs (csv_file_of wd (sheet_title sh)) csv).
      apply write_bytes_runs; [done | by rewrite csv_file_parent]. }
    destruct (IH (outs ++ [entry_of wd (sheet_title sh) csv]) fs1 Hcsv) as (fs' & Hrun & Hs').
    + eapply Forall_impl; [exact Htargets|]. intros sh' Hsh' Hdir.
      apply Hsh'. by apply (node_at_dir_same fs fs1).
    + by apply (node_at_dir_same fs fs1).
    + exists fs'. split; [|by eapply same_dirs_trans].
      rewrite Hrun. f_equal. f_equal. rewrite <- app_assoc. simpl.
      unfold sheet_entry at 2. by rewrite Hsh.
Qed.

Lemma write_json_same_dirs (p : path) (d : json) (fs fs' : filesystem) :
  write_json p d fs = (Ok tt, fs') ->
  same_dirs fs fs' /\ node_at fs p <> Some Dir /\ node_at fs (path_parent p) = Some Dir.
Proof.
  unfold write_json, write_text. intros ([] & fs1 & Hw1 & Hw2)%io_bind_Ok.
  destruct (utf8_encode _) as [b|]; [|done].
  pose proof (write_bytes_Ok_inv _ _ _ _ Hw1) as [Hp Hparent].
  split; [|done]. eapply same_dirs_trans; by eapply write_bytes_same_dirs.
Qed.

Lemma write_json_runs (p : path) (d : json) (b : bytes) (fs : filesystem) :
  node_at fs p <> Some Dir -> node_at fs (path_parent p) = Some Dir ->
  utf8_encode (json_dumps d ++ [NEWLINE]) = Some b ->
  exists fs', write_json p d fs = (Ok tt, fs') /\ file_content fs' p = Some b.
Proof.
  intros Hp Hparent Hb. unfold write_json, write_text.
  rewrite (io_bind_step _ _ _ _ _ (write_bytes_runs p [] fs Hp Hparent)). rewrite Hb.
  set (fs1 := <[_ := _]> fs).
  assert (same_dirs fs fs1) as Hsame.
  { apply (write_bytes_same_dirs p []). by apply write_bytes_runs. }
  assert (write_bytes p b fs1 = (Ok tt, <[as_posix p := File b]> fs1)) as Hw.
  { apply write_bytes_runs.
    - intros Hdir. apply Hp. by apply (node_at_dir_same fs fs1).
    - by apply (node_at_dir_same fs fs1). }
  eexists. split; [exact Hw|]. by apply write_bytes_Ok in Hw as (_ & _ & ?).
Qed.

(** The directories and the files a completed run leaves behind. *)
Lemma main_Ok_dirs (args : Namespace) (fs fs' : filesystem) :
  main args fs = (Ok tt, fs') ->
  let manifest_path := path_of_str (arg_manifest args) in
  dirs_exist (path_of_str (arg_outdir args)) fs' /\
  dirs_exist (path_parent manifest_path) fs' /\
  dirs_exist (workbook_dir_of args) fs' /\
  Forall (fun sh => node_at fs' (csv_file_of (workbook_dir_of args) (sheet_title sh))
                    <> Some Dir) (workbook_sheets args fs) /\
  node_at fs' manifest_path <> Some Dir.
Proof.
  cbv zeta. rewrite main_split. intros (d & fs6 & Hnew & Hw)%io_bind_Ok.
  apply write_json_same_dirs in Hw as (Hs6 & Hmp & _).
  revert Hnew. unfold new_manifest. cbv zeta.
  rewrite (io_bind_step _ _ _ _ _ (path_exists_run _ _)).
  destruct (negb _); [done|].
  intros ([] & fs1 & Hmk1 & Hrun)%io_bind_Ok.
  apply io_bind_Ok in Hrun as ([] & fs2 & Hmk2 & Hrun).
  apply io_bind_Ok in Hrun as (old & fs3 & Hread & Hrun).
  pose proof (read_json_state _ _ _ _ Hread) as ->.
  apply io_bind_Ok in Hrun as (sha & fs4 & Hsha & Hrun).
  pose proof (sha256_file_state _ _ _ _ Hsha) as ->.
  apply io_bind_Ok in Hrun as (outs & fs5 & Hexp & Hrun).
  apply io_bind_Ok in Hrun as (v & fs7 & Hver & [= _ <-]).
  injection Hver as _ <-.
  apply mkdir_parents_Ok_dirs in Hmk1 as Hd1. destruct Hd1 as [Hout K12].
  apply mkdir_parents_Ok_dirs in Hmk2 as Hd2. destruct Hd2 as [Hmparent K23].
  (* inside the export *)
  unfold export_sheets_to_csv in Hexp.
  apply io_bind_Ok in Hexp as (data & fs2' & Hdata & Hexp).
  apply read_bytes_Ok in Hdata as [Hdata ->].
  destruct (excel_file data) as [xls|] eqn:Hxls; [|done].
  apply io_bind_Ok in Hexp as ([] & fs4 & Hmk3 & Hexp).
  apply io_bind_Ok in Hexp as (res & fs5' & Hloop & [= _ <-]).
  apply mkdir_parents_Ok_dirs in Hmk3 as Hd3. destruct Hd3 as [Hwd K34].
  apply export_loop_Ok_dirs in Hloop as (S45 & Htargets & _).
  assert (dirs_kept fs4 fs') as K4.
  { eapply dirs_kept_trans; apply same_dirs_kept; eassumption. }
  assert (dirs_kept fs2 fs') as K2 by (by eapply dirs_kept_trans).
  repeat split.
  - apply (dirs_exist_kept fs1); [|exact Hout]. by eapply dirs_kept_trans.
  - by apply (dirs_exist_kept fs2).
  - by apply (dirs_exist_kept fs4).
  - unfold workbook_sheets.
    assert (file_content fs (path_of_str (arg_excel args)) = Some data) as ->.
    { rewrite <- Hdata. symmetry. apply file_content_agree.
      rewrite (mkdir_parents_files _ _ _ _ Hmk2). by apply (mkdir_parents_files _ _ _ _ Hmk1). }
    rewrite Hxls. eapply Forall_impl; [exact Htargets|].
    intros sh Hsh Hdir. apply Hsh.
    apply (node_at_dir_same fs4 fs'); [by eapply same_dirs_trans | done].
  - intros Hdir. apply Hmp. by apply (node_at_dir_same _ _ _ Hs6).
Qed.

(** On a file system that has the directories, the workbook, and a manifest
    that reads as [d], with the CSV paths and the manifest path free of
    directories, a run completes and writes the manifest given by [d]'s
    version when the source hash is the one [d] records. *)
Lemma main_runs (args : Namespace) (fs : filesystem) (data b : bytes)
    (xls : list sheet) (d : json) :
  let excel_path := path_of_str (arg_excel args) in
  let outdir := path_of_str (arg_outdir args) in
  let manifest_path := path_of_str (arg_manifest args) in
  file_content fs excel_path = Some data ->
  excel_file data = Some xls ->
  Forall (fun sh => is_Some (sheet_csv sh)) xls ->
  dirs_exist outdir fs ->
  dirs_exist (path_parent manifest_path) fs ->
  dirs_exist (workbook_dir_of args) fs ->
  Forall (fun sh => node_at fs (csv_file_of (workbook_dir_of args) (sheet_title sh))
                    <> Some Dir) xls ->
  (exists b0, file_content fs manifest_path = Some b0) ->
  stored_manifest fs manifest_path = Some d ->
  is_manifest_doc d = true ->
  recorded_sha d = Sha256.hexdigest data ->
  let d' := build_manifest excel_path outdir manifest_path
              (sorted (List.map (sheet_entry (workbook_dir_of args)) xls) csv_path)
              (Sha256.hexdigest data) (recorded_version d) in
  utf8_encode (json_dumps d' ++ [NEWLINE]) = Some b ->
  exists fsB fs',
    new_manifest args fs = (Ok d', fsB) /\
    main args fs = (Ok tt, fs') /\
    file_content fs' manifest_path = Some b.
Proof.
  cbv zeta. intros Hdata Hxls Hcsv Hout Hmparent Hwd Htargets [b0 Hfile] Hstored Hdoc Hsha Hb.
  assert (exists fsB,
    new_manifest args fs =
      (Ok (build_manifest (path_of_str (arg_excel args)) (path_of_str (arg_outdir args))
             (path_of_str (arg_manifest args))
             (sorted (List.map (sheet_entry (workbook_dir_of args)) xls) csv_path)
             (Sha256.hexdigest data) (recorded_version d)), fsB) /\
    same_dirs fs fsB) as (fsB & Hnew & Hsame).
  { unfold new_manifest. cbv zeta.
    rewrite (io_bind_step _ _ _ _ _ (path_exists_run _ _)).
    apply file_content_node in Hdata as Hnode. rewrite Hnode.
    rewrite bool_decide_eq_true_2 by eauto. cbn [negb].
    rewrite (io_bind_step _ _ _ _ _ (mkdir_parents_noop _ _ Hout)).
    rewrite (io_bind_step _ _ _ _ _ (mkdir_parents_noop _ _ Hmparent)).
    assert (read_json (path_of_str (arg_manifest args)) fs = (Ok d, fs)) as Hread.
    { rewrite read_json_run. rewrite (proj1 (file_content_node _ _ _) Hfile).
      unfold stored_manifest in Hstored. rewrite Hfile in Hstored.
      destruct (utf8_decode b0) as [t|]; [|done]. by rewrite Hstored. }
    rewrite (io_bind_step _ _ _ _ _ Hread).
    assert (sha256_file (path_of_str (arg_excel args)) fs
            = (Ok (Sha256.hexdigest data), fs)) as Hdigest.
    { by rewrite sha256_file_run, Hdata. }
    rewrite (io_bind_step _ _ _ _ _ Hdigest).
    destruct (export_loop_runs (workbook_dir_of args) xls [] fs Hcsv Htargets
                (dirs_exist_node _ _ Hwd)) as (fsB & Hloop & Hsame).
    assert (export_sheets_to_csv (path_of_str (arg_excel args))
              (path_of_str (arg_outdir args)) fs
            = (Ok (sorted (List.map (sheet_entry (workbook_dir_of args)) xls) csv_path), fsB))
      as Hexp.
    { unfold export_sheets_to_csv.
      rewrite (io_bind_step _ _ _ _ _ (proj2 (read_bytes_Ok _ _ _ _) (conj Hdata eq_refl))).
      rewrite Hxls.
      rewrite (io_bind_step _ _ _ _ _ (mkdir_parents_noop _ _ Hwd)).
      fold (workbook_dir_of args). by rewrite (io_bind_step _ _ _ _ _ Hloop). }
    rewrite (io_bind_step _ _ _ _ _ Hexp).
    unfold io_lift, io_ret, io_bind.
    rewrite next_version_doc by done. rewrite Hsha, str_eqb_refl.
    by exists fsB. }
  match type of Hb with utf8_encode (json_dumps ?x ++ _) = _ => set (d' := x) in * end.
  destruct (write_json_runs (path_of_str (arg_manifest args)) d' b fsB) as (fs' & Hw & Hfile');
    [| |exact Hb|].
  - intros Hdir. apply (node_at_dir_same fs fsB) in Hdir; [|done].
    apply file_content_node in Hfile. congruence.
  - apply (node_at_dir_same fs fsB); [done|]. by apply dirs_exist_node.
  - exists fsB, fs'. split; [done|]. split; [|done].
    by rewrite main_split, (io_bind_step _ _ _ _ _ Hnew).
Qed.

End Rerun.

(** C3. Two runs in succession on unchanged source bytes: when the manifest
    the first run dumped reads back as the same document, the second run
    completes, the manifest it computes and writes is that document again,
    and so the second manifest has the version and the source hash of the
    first. *)
Theorem rerun_keeps_version `{Runtime} (args : Namespace)
    (fs0 fsA fs1 : filesystem) (d1 : json) :
  let excel_path := path_of_str (arg_excel args) in
  let manifest_path := path_of_str (arg_manifest args) in
  new_manifest args fs0 = (Ok d1, fsA) ->
  main args fs0 = (Ok tt, fs1) ->
  reread d1 = Some d1 ->
  file_content fs1 excel_path = file_content fs0 excel_path ->
  exists d2 fsB fs2,
    new_manifest args fs1 = (Ok d2, fsB) /\
    main args fs1 = (Ok tt, fs2) /\
    stored_manifest fs1 manifest_path = Some d1 /\
    stored_manifest fs2 manifest_path = Some d2 /\
    recorded_version d2 = recorded_version d1 /\
    recorded_sha d2 = recorded_sha d1 /\
    d2 = d1.
Proof.
  cbv zeta. intros Hnew1 Hmain1 Hround Hsrc.
  pose proof (main_Ok_dirs _ _ _ Hmain1) as (Hout & Hmparent & Hwd & Htargets & _).
  apply main_Ok in Hmain1 as (d1' & fsA' & b1 & Hnew1' & Hb1 & Hfile1).
  rewrite Hnew1 in Hnew1'. injection Hnew1' as <- <-.
  assert (stored_manifest fs1 (path_of_str (arg_manifest args)) = Some d1) as Hstored.
  { unfold reread in Hround. rewrite Hb1 in Hround.
    unfold stored_manifest. by rewrite Hfile1. }
  apply new_manifest_Ok in Hnew1
    as (data & xls & old1 & v1 & Hdata & Hxls & Hcsv & _ & _ & Hd1).
  cbv zeta in Hdata, Hd1.
  unfold workbook_sheets in Htargets. rewrite Hdata, Hxls in Htargets.
  rewrite <- Hsrc in Hdata.
  destruct (main_runs args fs1 data b1 xls d1) as (fsB & fs2 & Hnew2 & Hmain2 & Hfile2);
    try done.
  - by exists b1.
  - rewrite Hd1. apply build_manifest_is_doc.
  - rewrite Hd1. apply build_manifest_sha.
  - rewrite Hd1 at 1. rewrite build_manifest_version. by rewrite <- Hd1.
  - cbv zeta in Hnew2, Hfile2.
    assert (build_manifest (path_of_str (arg_excel args)) (path_of_str (arg_outdir args))
              (path_of_str (arg_manifest args))
              (sorted (List.map (sheet_entry (workbook_dir_of args)) xls) csv_path)
              (Sha256.hexdigest data) (recorded_version d1) = d1) as Hsame.
    { rewrite Hd1 at 1. rewrite build_manifest_version. by rewrite <- Hd1. }
    rewrite Hsame in Hnew2.
    exists d1, fsB, fs2. repeat split; try done.
    unfold stored_manifest. rewrite Hfile2.
    unfold reread in Hround. by rewrite Hb1 in Hround.
Qed.

(** * The properties on concrete runs *)

Section Runs.
Import Scenario.
#[local] Existing Instance sample_runtime.

Lemma next_version_rule_witness :
  is_manifest_doc previous = true /\
  next_version previous (Sha256.hexdigest Sample.quarterly_rev2_xlsx) = Ok 4%Z /\
  next_version previous (Sha256.hexdigest Sample.quarterly_xlsx) = Ok 3%Z /\
  node_at quarterly_fs (path_of_str (arg_manifest quarterly_args)) = None /\
  exists fs',
    new_manifest quarterly_args quarterly_fs = (Ok quarterly_manifest, fs') /\
    recorded_version quarterly_manifest = 1%Z.
Proof.
  destruct (@next_version_rule sample_runtime) as [Hrule Hfirst].
  assert (is_manifest_doc previous = true) as Hdoc by (vm_compute; reflexivity).
  assert (node_at quarterly_fs (path_of_str (arg_manifest quarterly_args)) = None)
    as Habsent by (vm_compute; reflexivity).
  assert (new_manifest quarterly_args quarterly_fs =
          (Ok quarterly_manifest, snd (new_manifest quarterly_args quarterly_fs))) as Hrun.
  { apply run_eta. vm_compute. reflexivity. }
  split; [exact Hdoc|].
  split; [rewrite (Hrule previous _ Hdoc); vm_compute; reflexivity|].
  split; [rewrite (Hrule previous _ Hdoc); vm_compute; reflexivity|].
  split; [exact Habsent|].
  eexists. split; [exact Hrun|].
  exact (Hfirst quarterly_args quarterly_fs _ _ Habsent Hrun).
Defined.

Lemma next_version_monotone_witness :
  is_manifest_doc previous = true /\
  next_version previous (Sha256.hexdigest Sample.quarterly_rev2_xlsx) = Ok 4%Z /\
  (exists v,
     next_version previous (Sha256.hexdigest Sample.quarterly_rev2_xlsx) = Ok v /\
     (recorded_version previous <= v)%Z) /\
  (exists old,
     rbind (py_get previous (py "version") (JInt 0)) py_int = Ok old /\ (old <= 4)%Z).
Proof.
  assert (is_manifest_doc previous = true) as Hdoc by (vm_compute; reflexivity).
  assert (next_version previous (Sha256.hexdigest Sample.quarterly_rev2_xlsx) = Ok 4%Z)
    as Hrun by (vm_compute; reflexivity).
  destruct (next_version_monotone previous (Sha256.hexdigest Sample.quarterly_rev2_xlsx))
    as [Htyped Hany].
  split; [exact Hdoc|]. split; [exact Hrun|].
  split; [exact (Htyped Hdoc) | exact (Hany _ Hrun)].
Defined.

Lemma build_manifest_depends_on_witness :
  as_posix (path_of_str (py "data/quarterly.xlsx")) =
  as_posix (path_of_str (py "./data//quarterly.xlsx")) /\
  as_posix (path_of_str (py "generated/csv")) =
  as_posix (path_of_str (py "generated/csv/")) /\
  build_manifest (path_of_str (py "data/quarterly.xlsx"))
    (path_of_str (py "generated/csv")) (path_of_str (py "generated/manifest.json"))
    [] (py "00") 1 =
  build_manifest (path_of_str (py "./data//quarterly.xlsx"))
    (path_of_str (py "generated/csv/")) (path_of_str (py "elsewhere/m.json"))
    [] (py "00") 1.
Proof.
  assert (as_posix (path_of_str (py "data/quarterly.xlsx")) =
          as_posix (path_of_str (py "./data//quarterly.xlsx"))) as He
    by (vm_compute; reflexivity).
  assert (as_posix (path_of_str (py "generated/csv")) =
          as_posix (path_of_str (py "generated/csv/"))) as Ho
    by (vm_compute; reflexivity).
  split; [exact He|]. split; [exact Ho|].
  exact (build_manifest_depends_on _ _ _ _ _ _ _ _ _ He Ho).
Defined.

Lemma csv_paths_distinct_iff_witness :
  exists fs2,
    main quarterly_args quarterly_fs = (Ok tt, fs2) /\
    exists d fs1 b,
      new_manifest quarterly_args quarterly_fs = (Ok d, fs1) /\
      utf8_encode (json_dumps d ++ [NEWLINE]) = Some b /\
      file_content fs2 (path_of_str (arg_manifest quarterly_args)) = Some b /\
      (NoDup (manifest_csv_paths d) <-> NoDup (workbook_stems quarterly_args quarterly_fs)).
Proof.
  assert (main quarterly_args quarterly_fs =
          (Ok tt, snd (main quarterly_args quarterly_fs))) as Hrun.
  { apply run_eta. vm_compute. reflexivity. }
  eexists. split; [exact Hrun|].
  exact (csv_paths_distinct_iff quarterly_args quarterly_fs _ Hrun).
Defined.

(** C2 fails on the code: the workbook with the sheets [a b] and [a_b] is
    exported without error and the manifest written has two entries with the
    [csv_path] [generated/csv/collide/a_b.csv]. *)
Lemma csv_paths_collide :
  List.map safe_filename [py "a b"; py "a_b"] = [py "a_b"; py "a_b"] /\
  (exists fs1 fs2,
     new_manifest collide_args collide_fs = (Ok collide_manifest, fs1) /\
     main collide_args collide_fs = (Ok tt, fs2) /\
     stored_manifest fs2 (path_of_str (arg_manifest collide_args)) = Some collide_manifest) /\
  manifest_csv_paths collide_manifest =
    [py "generated/csv/collide/a_b.csv"; py "generated/csv/collide/a_b.csv"] /\
  ~ NoDup (manifest_csv_paths collide_manifest).
Proof.
  assert (manifest_csv_paths collide_manifest =
          [py "generated/csv/collide/a_b.csv"; py "generated/csv/collide/a_b.csv"])
    as Hpaths by (vm_compute; reflexivity).
  split; [vm_compute; reflexivity|]. split.
  - eexists _, _. split; [apply run_eta; vm_compute; reflexivity|].
    split; [apply run_eta; vm_compute; reflexivity|]. vm_compute. reflexivity.
  - split; [exact Hpaths|].
    rewrite Hpaths. intros [Hnotin _]%NoDup_cons. apply Hnotin, list_elem_of_here.
Qed.

Lemma outputs_sorted_by_csv_path_witness :
  (exists outs fs',
     export_sheets_to_csv (path_of_str (py "data/quarterly.xlsx"))
       (path_of_str (py "generated/csv")) quarterly_fs = (Ok outs, fs') /\
     List.map csv_path outs =
       [py "generated/csv/quarterly/Q1_Data.csv"; py "generated/csv/quarterly/Q2-Data.csv"] /\
     StronglySorted (key_le csv_path) outs) /\
  (exists d fs',
     new_manifest quarterly_args quarterly_fs = (Ok d, fs') /\
     manifest_csv_paths d =
       [py "generated/csv/quarterly/Q1_Data.csv"; py "generated/csv/quarterly/Q2-Data.csv"] /\
     StronglySorted (fun a b => str_leb a b = true) (manifest_csv_paths d)).
Proof.
  destruct (@outputs_sorted_by_csv_path sample_runtime) as [Hexport Hmanifest].
  split.
  - assert (exists outs,
      fst (export_sheets_to_csv (path_of_str (py "data/quarterly.xlsx"))
             (path_of_str (py "generated/csv")) quarterly_fs) = Ok outs /\
      List.map csv_path outs =
        [py "generated/csv/quarterly/Q1_Data.csv"; py "generated/csv/quarterly/Q2-Data.csv"])
      as (outs & Houts & Hpaths).
    { eexists. split; vm_compute; reflexivity. }
    apply run_eta in Houts.
    eexists _, _. split; [exact Houts|]. split; [exact Hpaths|].
    exact (Hexport _ _ _ _ _ Houts).
  - assert (new_manifest quarterly_args quarterly_fs =
            (Ok quarterly_manifest, snd (new_manifest quarterly_args quarterly_fs))) as Hrun.
    { apply run_eta. vm_compute. reflexivity. }
    eexists _, _. split; [exact Hrun|]. split; [vm_compute; reflexivity|].
    exact (Hmanifest _ _ _ _ Hrun).
Defined.

Lemma malformed_manifest_is_fatal_witness :
  file_content malformed_fs (path_of_str (arg_manifest quarterly_args))
    = Some (ascii_bytes (py "{ version: 1")) /\
  stored_manifest malformed_fs (path_of_str (arg_manifest quarterly_args)) = None /\
  (exists e,
     read_json (path_of_str (arg_manifest quarterly_args)) malformed_fs
       = (Raise e, malformed_fs) /\
     (e = JSONDecodeError \/ e = UnicodeDecodeError)) /\
  exists e fs',
    main quarterly_args malformed_fs = (Raise e, fs') /\
    file_content fs' (path_of_str (arg_manifest quarterly_args))
      = Some (ascii_bytes (py "{ version: 1")).
Proof.
  destruct (@malformed_manifest_is_fatal sample_runtime) as (Hread & _ & _ & Hmain).
  assert (file_content malformed_fs (path_of_str (arg_manifest quarterly_args))
            = Some (ascii_bytes (py "{ version: 1"))) as Hfile
    by (vm_compute; reflexivity).
  assert (stored_manifest malformed_fs (path_of_str (arg_manifest quarterly_args)) = None)
    as Hbad by (vm_compute; reflexivity).
  split; [exact Hfile|]. split; [exact Hbad|].
  split; [exact (Hread _ _ _ Hfile Hbad)|].
  destruct (Hmain quarterly_args malformed_fs _ Hfile Hbad) as (e & fs' & Hrun & Hkept & _).
  exists e, fs'. by split.
Defined.



Lemma rerun_keeps_version_witness :
  exists fsA fs1,
    new_manifest quarterly_args quarterly_fs = (Ok quarterly_manifest, fsA) /\
    main quarterly_args quarterly_fs = (Ok tt, fs1) /\
    reread quarterly_manifest = Some quarterly_manifest /\
    file_content fs1 (path_of_str (arg_excel quarterly_args))
      = file_content quarterly_fs (path_of_str (arg_excel quarterly_args)) /\
    exists d2 fsB fs2,
      new_manifest quarterly_args fs1 = (Ok d2, fsB) /\
      main quarterly_args fs1 = (Ok tt, fs2) /\
      stored_manifest fs1 (path_of_str (arg_manifest quarterly_args))
        = Some quarterly_manifest /\
      stored_manifest fs2 (path_of_str (arg_manifest quarterly_args)) = Some d2 /\
      recorded_version d2 = recorded_version quarterly_manifest /\
      recorded_sha d2 = recorded_sha quarterly_manifest /\
      d2 = quarterly_manifest.
Proof.
  assert (new_manifest quarterly_args quarterly_fs =
          (Ok quarterly_manifest, snd (new_manifest quarterly_args quarterly_fs))) as H1.
  { apply run_eta. vm_compute. reflexivity. }
  assert (main quarterly_args quarterly_fs =
          (Ok tt, snd (main quarterly_args quarterly_fs))) as H2.
  { apply run_eta. vm_compute. reflexivity. }
  assert (reread quarterly_manifest = Some quarterly_manifest) as H3
    by (vm_compute; reflexivity).
  assert (file_content (snd (main quarterly_args quarterly_fs))
            (path_of_str (arg_excel quarterly_args))
          = file_content quarterly_fs (path_of_str (arg_excel quarterly_args))) as H4
    by (vm_compute; reflexivity).
  eexists _, _.
  split; [exact H1|]. split; [exact H2|]. split; [exact H3|]. split; [exact H4|].
  exact (rerun_keeps_version quarterly_args quarterly_fs _ _ quarterly_manifest
           H1 H2 H3 H4).
Defined.

End Runs.

(** * Further properties of the script *)

(** ** Plain paths

    Among the plain paths under one anchor, [as_posix] is injective: each
    file has one spelling, and the store, keyed by [as_posix], keeps the
    files of two such paths apart exactly when the paths differ. *)







(** ** Errors of a lookup *)





(** ** [sha256_file] *)

Lemma land_15_lt (x : N) : N.land x 0xF < 16.
Proof.
  change 0xF with (N.ones 4). rewrite N.land_ones.
  apply N.mod_upper_bound. discriminate.
Qed.

Lemma hex_digit_lower (d : N) : d < 16 -> is_lower_hex (Sha256.hex_digit d) = true.
Proof.
  intros Hd. unfold is_lower_hex, Sha256.hex_digit.
  destruct (N.ltb_spec d 10).
  - apply orb_true_iff. left. apply andb_true_iff. split; apply N.leb_le; lia.
  - apply orb_true_iff. right. apply andb_true_iff. split; apply N.leb_le; lia.
Qed.

Lemma hexdigest_lower_hex (msg : bytes) :
  Forall (fun c => is_lower_hex c = true) (Sha256.hexdigest msg).
Proof.
  unfold Sha256.hexdigest. apply List.Forall_concat, List.Forall_map.
  apply List.Forall_forall. intros w _. unfold Sha256.hex_word.
  apply List.Forall_map, List.Forall_forall. intros i _.
  apply hex_digit_lower, land_15_lt.
Qed.

(** X1. On a regular file [sha256_file] returns the SHA-256 of the whole
    content, whatever its length against the 1 MiB chunk size, as 64
    lower-case hexadecimal digits, and leaves the file system as it is. *)
Theorem sha256_file_digest `{Runtime} (p : path) (fs : filesystem) (data : bytes) :
  file_content fs p = Some data ->
  sha256_file p fs = (Ok (Sha256.hexdigest data), fs) /\
  length (Sha256.hexdigest data) = 64%nat /\
  Forall (fun c => is_lower_hex c = true) (Sha256.hexdigest data).
Proof.
  intros Hdata. rewrite sha256_file_run, Hdata.
  split; [done|]. split; [apply hexdigest_length | apply hexdigest_lower_hex].
Qed.


(** ** [read_json] and [write_json] *)

(** X3. Reading back what [write_json] wrote: when the runtime's decoder and
    parser undo its encoder and printer on [d], a completed
    [write_json p d] is followed by [read_json p] returning [d], with the
    file system unchanged by the read. *)
Theorem write_then_read_json `{Runtime} (p : path) (d : json) (fs fs' : filesystem) :
  write_json p d fs = (Ok tt, fs') ->
  reread d = Some d ->
  read_json p fs' = (Ok d, fs').
Proof.
  intros (b & Hb & Hfile)%write_json_Ok Hround.
  rewrite read_json_run. rewrite (proj1 (file_content_node _ _ _) Hfile).
  unfold reread in Hround. rewrite Hb in Hround.
  destruct (utf8_decode b) as [t|]; [|done]. by rewrite Hround.
Qed.



(** X5. [read_json] never changes the file system, and on a directory it
    raises [IsADirectoryError] rather than returning the empty document. *)
Theorem read_json_read_only `{Runtime} (p : path) (fs fs' : filesystem) (r : result json) :
  read_json p fs = (r, fs') ->
  fs' = fs /\ (node_at fs p = Some Dir -> r = Raise IsADirectoryError).
Proof.
  intros Hrun. split; [by apply read_json_state in Hrun|].
  intros Hdir. rewrite read_json_run, Hdir in Hrun. by injection Hrun as <- _.
Qed.

(** ** [safe_filename] *)

Lemma safe_filename_nonempty `{Runtime} (name : pystr) : safe_filename name <> [].
Proof.
  rewrite safe_filename_unfold. cbv zeta.
  destruct (str_eqb _ []) eqn:E; simpl; [done|]. by apply str_eqb_neq in E.
Qed.

Lemma safe_filename_ends `{Runtime} (name : pystr) :
  head (safe_filename name) <> Some UNDERSCORE /\
  last (safe_filename name) <> Some UNDERSCORE.
Proof.
  rewrite safe_filename_unfold. cbv zeta.
  destruct (str_eqb _ []) eqn:E; simpl; [by split|].
  by destruct (strip_strips (List.map clean_char name)) as (? & ? & _ & _ & _ & ? & ?).
Qed.

Lemma safe_filename_allowed `{Runtime} (name : pystr) : Forall allowed (safe_filename name).
Proof. eapply Forall_impl; [apply safe_filename_chars|]. intros c. apply keep_allowed. Qed.

(** X6. A stem is never empty, is made of alphanumeric characters, [-] and
    [_] only, and neither starts nor ends with [_]. *)
Theorem safe_filename_shape `{Runtime} (name : pystr) :
  safe_filename name <> [] /\
  Forall allowed (safe_filename name) /\
  head (safe_filename name) <> Some UNDERSCORE /\
  last (safe_filename name) <> Some UNDERSCORE.
Proof.
  split; [apply safe_filename_nonempty|].
  split; [apply safe_filename_allowed | apply safe_filename_ends].
Qed.

(** X7. The names [safe_filename] leaves as they are are exactly the
    non-empty names of allowed characters that neither start nor end with
    [_]. *)
Theorem safe_filename_fixpoint_iff `{Runtime} (s : pystr) :
  safe_filename s = s <->
  s <> [] /\ Forall allowed s /\
  head s <> Some UNDERSCORE /\ last s <> Some UNDERSCORE.
Proof.
  split.
  - intros E. rewrite <- E.
    split; [apply safe_filename_nonempty|].
    split; [apply safe_filename_allowed | apply safe_filename_ends].
  - intros (Hne & Hall & Hh & Hl). rewrite safe_filename_unfold. cbv zeta.
    assert (List.map clean_char s = s) as ->.
    { rewrite <- (map_id s) at 2. apply map_ext_in. intros c Hc.
      apply clean_char_kept, keep_allowed.
      rewrite List.Forall_forall in Hall. by apply Hall. }
    rewrite strip_fixpoint by done. by rewrite (proj2 (str_eqb_neq _ _)).
Qed.

Lemma last_app_singleton {A} (d : A) (l : list A) (x : A) : List.last (l ++ [x]) d = x.
Proof. induction l as [|y l IH]; [done|]. simpl. by destruct (l ++ [x]) eqn:E; [destruct l|]. Qed.

(** X8. Whatever the sheet is called, its CSV file lies directly in the
    workbook directory, under the name [<stem>.csv], which holds no [/]: a
    sheet name cannot direct the export to another directory. *)
Theorem csv_file_in_workbook_dir `{Runtime} (workbook_dir : path) (title : pystr) :
  let csv_file := path_div workbook_dir (safe_filename title ++ py ".csv") in
  path_parent csv_file = workbook_dir /\
  path_name csv_file = safe_filename title ++ py ".csv" /\
  SLASH ∉ path_name csv_file.
Proof.
  cbv zeta. fold (csv_file_of workbook_dir title).
  split; [apply csv_file_parent|].
  assert (path_name (csv_file_of workbook_dir title) = safe_filename title ++ py ".csv")
    as Hname.
  { unfold csv_file_of, path_div. rewrite path_of_csv_name by apply safe_filename_chars.
    unfold joinpath, path_name. cbn [anchor parts]. apply last_app_singleton. }
  split; [exact Hname|]. rewrite Hname. intros Hin.
  apply elem_of_app in Hin as [Hin|Hin].
  - pose proof (safe_filename_chars title) as Hk. rewrite List.Forall_forall in Hk.
    by apply (keep_not_slash SLASH); [apply Hk, list_elem_of_In|].
  - by vm_compute in Hin; repeat (apply elem_of_cons in Hin as [Hin|Hin]; [done|]);
      apply elem_of_nil in Hin.
Qed.

(** ** [next_version] *)

(** X9. [next_version] on a manifest [build_manifest] made: the version is
    kept when the new hash is the recorded one and is one more otherwise,
    whatever the paths and the output entries. *)
Theorem next_version_after_build `{Runtime} (excel_path outdir manifest_path : path)
    (outputs : list OutputEntry) (excel_sha : pystr) (version : Z) (new_sha : pystr) :
  next_version (build_manifest excel_path outdir manifest_path outputs excel_sha version)
               new_sha =
  Ok (if bool_decide (new_sha = excel_sha) then version else version + 1)%Z.
Proof.
  rewrite next_version_doc by apply build_manifest_is_doc.
  rewrite build_manifest_sha, build_manifest_version, str_eqb_sym. reflexivity.
Qed.

(** X10. When [next_version] returns and when it raises.  It returns exactly
    on a JSON object whose [version] (0 when missing) [int] accepts and
    whose [source] is missing, falsy or an object; any other kind of
    document raises [AttributeError]. *)
Theorem next_version_returns_iff `{Runtime} (m : json) (h : pystr) :
  ((exists v, next_version m h = Ok v) <->
   exists kv,
     m = JObj kv /\
     (exists n, py_int (default (JInt 0) (dict_get kv (py "version"))) = Ok n) /\
     (truthy (default JNull (dict_get kv (py "source"))) = false \/
      exists skv, dict_get kv (py "source") = Some (JObj skv))) /\
  ((forall kv, m <> JObj kv) -> next_version m h = Raise AttributeError).
Proof.
  split.
  - split.
    + intros [v Hv]. destruct m as [| | | | | |kv]; try done.
      exists kv. split; [done|]. revert Hv. unfold next_version. simpl.
      destruct (py_int _) as [n|]; simpl; [|done]. intros Hv. split; [eauto|].
      destruct (dict_get kv (py "source")) as [src|]; simpl in *; [|by left].
      unfold py_or in Hv. destruct (truthy src) eqn:Et; [|by left].
      right. destruct src; try done. eauto.
    + intros (kv & -> & [n Hn] & Hsrc). unfold next_version. simpl.
      assert (py_int match dict_get kv (py "version") with
                     | Some v => v
                     | None => JInt 0
                     end = Ok n) as -> by (by destruct (dict_get kv (py "version"))).
      simpl. destruct Hsrc as [Hfalsy|[skv Hskv]].
      * assert (py_or match dict_get kv (py "source") with
                      | Some v => v
                      | None => JNull
                      end (JObj []) = JObj []) as ->.
        { unfold py_or. by destruct (dict_get kv (py "source")); simpl in *; rewrite ?Hfalsy. }
        simpl. eauto.
      * rewrite Hskv. rewrite py_get_or_dict. simpl. eauto.
  - intros Hno. destruct m; try done. by destruct (Hno entries).
Qed.

(** ** [build_manifest] and [to_dict] *)

Lemma to_dict_inj (a b : OutputEntry) : to_dict a = to_dict b -> a = b.
Proof.
  destruct a, b. unfold to_dict. simpl. intros E.
  injection E. intros. subst. reflexivity.
Qed.

Lemma map_to_dict_inj (l1 l2 : list OutputEntry) :
  List.map to_dict l1 = List.map to_dict l2 -> l1 = l2.
Proof.
  revert l2. induction l1 as [|a l1 IH]; intros [|b l2]; cbn [List.map]; try done.
  intros E. injection E as Hname Hpath Hsha Hl.
  f_equal; [destruct a, b; simpl in *; congruence | by apply IH].
Qed.

(** X11. The manifest keeps all it is built from: two manifests are equal
    only if they were built from the same version, the same POSIX forms of
    the output directory and of the source path, the same source hash and
    the same entries in the same order. *)
Theorem build_manifest_inj `{Runtime} (e1 e2 o1 o2 mp1 mp2 : path)
    (outs1 outs2 : list OutputEntry) (sha1 sha2 : pystr) (v1 v2 : Z) :
  build_manifest e1 o1 mp1 outs1 sha1 v1 = build_manifest e2 o2 mp2 outs2 sha2 v2 ->
  v1 = v2 /\ as_posix o1 = as_posix o2 /\ as_posix e1 = as_posix e2 /\
  sha1 = sha2 /\ outs1 = outs2.
Proof.
  unfold build_manifest. intros [= Hv Ho He Hs Houts].
  repeat split; try done. by apply map_to_dict_inj.
Qed.

(** ** [export_sheets_to_csv] *)

Section ExportFiles.
Context `{Runtime}.




(** With pairwise distinct targets, every sheet's file holds the sheet's
    text when the loop completes. *)
Lemma export_loop_files (wd : path) (sheets : list sheet) (outs res : list OutputEntry)
    (fs fs' : filesystem) :
  export_loop wd sheets outs fs = (Ok res, fs') ->
  NoDup (List.map (sheet_target wd) sheets) ->
  Forall (fun sh => file_at fs' (sheet_target wd sh) = sheet_csv sh) sheets.
Proof.
  revert outs fs. induction sheets as [|sh rest IH]; intros outs fs Hrun Hnd; [constructor|].
  simpl in Hnd. apply NoDup_cons in Hnd as [Hfresh Hnd].
  destruct (sheet_csv sh) as [csv|] eqn:Hcsv; [|by apply export_loop_stop_raises in Hrun].
  rewrite (export_loop_cons _ _ _ _ csv) in Hrun by done.
  destruct (write_bytes _ csv fs) as [[[]|e] fs1] eqn:Ew; [|done].
  constructor; [|by apply (IH _ _ Hrun)].
  rewrite (export_loop_others _ _ _ _ _ _ _ Hrun Hfresh).
  apply write_bytes_Ok in Ew as (-> & _). unfold file_at, sheet_target.
  by rewrite lookup_insert_eq.
Qed.


End ExportFiles.

(** X12. When the exporter completes and the returned entries have pairwise
    distinct [csv_path] values, every entry describes the file at its
    [csv_path]: that file exists and the entry's [sha256] is its digest. *)
Theorem export_entries_match_files `{Runtime} (excel_path outdir : path)
    (fs fs' : filesystem) (outs : list OutputEntry) :
  export_sheets_to_csv excel_path outdir fs = (Ok outs, fs') ->
  NoDup (List.map csv_path outs) ->
  Forall (fun o => exists csv, file_at fs' (csv_path o) = Some csv /\
                               sha256 o = Sha256.hexdigest csv) outs.
Proof.
  unfold export_sheets_to_csv. intros (data & fs1 & Hread & Hrun)%io_bind_Ok Hnd.
  apply read_bytes_Ok in Hread as [Hdata ->].
  destruct (excel_file data) as [xls|] eqn:Hxls; [|done].
  apply io_bind_Ok in Hrun as ([] & fs2 & _ & Hrun).
  apply io_bind_Ok in Hrun as (res & fs3 & Hloop & [= <- <-]).
  pose proof (export_loop_Ok _ _ _ _ _ _ Hloop) as [Hall ->]. simpl in *.
  rewrite sorted_perm in Hnd |- *. rewrite List.map_map in Hnd.
  pose proof (export_loop_files _ _ _ _ _ _ Hloop Hnd) as Hfiles.
  apply List.Forall_map. rewrite List.Forall_forall in Hall, Hfiles |- *.
  intros sh Hin. destruct (Hall sh Hin) as [csv Hcsv].
  exists csv. split.
  - rewrite <- Hcsv. by apply Hfiles.
  - unfold sheet_entry. by rewrite Hcsv.
Qed.


(** X14. The entries the exporter returns do not depend on the order of the
    sheets in the workbook when no two sheets share a stem: two workbooks
    with the same sheets in different orders, exported under the same
    directory, give the same list. *)
Theorem export_result_order_independent `{Runtime} (excel_path outdir : path)
    (fs1 fs2 fs1' fs2' : filesystem) (data1 data2 : bytes) (xls1 xls2 : list sheet)
    (outs1 outs2 : list OutputEntry) :
  file_content fs1 excel_path = Some data1 -> excel_file data1 = Some xls1 ->
  file_content fs2 excel_path = Some data2 -> excel_file data2 = Some xls2 ->
  Permutation xls1 xls2 ->
  NoDup (List.map (fun sh => safe_filename (sheet_title sh)) xls1) ->
  export_sheets_to_csv excel_path outdir fs1 = (Ok outs1, fs1') ->
  export_sheets_to_csv excel_path outdir fs2 = (Ok outs2, fs2') ->
  outs1 = outs2.
Proof.
  intros Hd1 Hx1 Hd2 Hx2 Hperm Hnd
    (d1 & x1 & Hd1' & Hx1' & _ & ->)%export_sheets_to_csv_Ok
    (d2 & x2 & Hd2' & Hx2' & _ & ->)%export_sheets_to_csv_Ok.
  rewrite Hd1 in Hd1'. injection Hd1' as <-. rewrite Hx1 in Hx1'. injection Hx1' as <-.
  rewrite Hd2 in Hd2'. injection Hd2' as <-. rewrite Hx2 in Hx2'. injection Hx2' as <-.
  by apply export_order_independent.
Qed.

(** ** [main] *)

Section MainMore.
Context `{Runtime}.








End MainMore.



(** X17. What a completed run has written at the manifest path: the JSON
    text of a document whose source hash is the SHA-256 of the source file,
    whose [csv_path] values are, up to order, the paths of the CSV files of
    the workbook's sheets, and whose version is [next_version] of the
    previous manifest (the empty document when there was no manifest
    file). *)
Theorem main_manifest_contents `{Runtime} (args : Namespace) (fs fs' : filesystem) :
  main args fs = (Ok tt, fs') ->
  let excel_path := path_of_str (arg_excel args) in
  let manifest_path := path_of_str (arg_manifest args) in
  exists data d b old,
    file_content fs excel_path = Some data /\
    utf8_encode (json_dumps d ++ [NEWLINE]) = Some b /\
    file_content fs' manifest_path = Some b /\
    recorded_sha d = Sha256.hexdigest data /\
    Permutation (manifest_csv_paths d) (csv_targets args fs) /\
    match file_content fs manifest_path with
    | Some _ => stored_manifest fs manifest_path = Some old
    | None => old = JObj []
    end /\
    next_version old (Sha256.hexdigest data) = Ok (recorded_version d).
Proof.
  cbv zeta. intros (d & fs1 & b & Hnew & Hb & Hfile)%main_Ok.
  apply new_manifest_Ok in Hnew
    as (data & xls & old & v & Hdata & Hxls & _ & Hold & Hv & ->).
  cbv zeta in *. eexists data, _, b, old.
  split; [done|]. split; [exact Hb|]. split; [done|].
  rewrite build_manifest_sha, build_manifest_version. repeat split; try done.
  rewrite build_manifest_csv_paths, sorted_perm, List.map_map.
  unfold csv_targets, workbook_sheets. by rewrite Hdata, Hxls.
Qed.

(** X18. A changed source bumps the version by one.  After a completed run
    whose manifest reads back as the document it dumped, a run on a file
    system that has that manifest file and a source whose digest differs
    from the recorded one computes the recorded version plus one and records
    the new digest. *)
Theorem source_change_bumps_version `{Runtime} (args : Namespace)
    (fs0 fsA fs1 fs1' fsB : filesystem) (d1 d2 : json) (data2 : bytes) :
  let excel_path := path_of_str (arg_excel args) in
  let manifest_path := path_of_str (arg_manifest args) in
  new_manifest args fs0 = (Ok d1, fsA) ->
  main args fs0 = (Ok tt, fs1) ->
  reread d1 = Some d1 ->
  file_content fs1' manifest_path = file_content fs1 manifest_path ->
  file_content fs1' excel_path = Some data2 ->
  Sha256.hexdigest data2 <> recorded_sha d1 ->
  new_manifest args fs1' = (Ok d2, fsB) ->
  recorded_version d2 = (recorded_version d1 + 1)%Z /\
  recorded_sha d2 = Sha256.hexdigest data2.
Proof.
  cbv zeta. intros Hnew1 Hmain1 Hround Hsame Hdata2 Hdiff Hnew2.
  apply main_Ok in Hmain1 as (d1' & fsA' & b1 & Hnew1' & Hb1 & Hfile1).
  rewrite Hnew1 in Hnew1'. injection Hnew1' as <- <-.
  assert (stored_manifest fs1' (path_of_str (arg_manifest args)) = Some d1) as Hstored.
  { unfold reread in Hround. rewrite Hb1 in Hround.
    unfold stored_manifest. by rewrite Hsame, Hfile1. }
  apply new_manifest_Ok in Hnew1 as (data1 & xls1 & old1 & v1 & _ & _ & _ & _ & _ & Hd1).
  apply new_manifest_Ok in Hnew2 as (data & xls & old & v & Hdata & _ & _ & Hold & Hv & ->).
  cbv zeta in *. rewrite Hdata2 in Hdata. injection Hdata as <-.
  rewrite Hsame, Hfile1, Hstored in Hold. injection Hold as <-.
  rewrite build_manifest_version, build_manifest_sha. split; [|done].
  rewrite next_version_doc in Hv by (rewrite Hd1; apply build_manifest_is_doc).
  rewrite (proj2 (str_eqb_neq _ _)) in Hv by (by intros E; apply Hdiff).
  by injection Hv as <-.
Qed.

(** X19. A completed run leaves the output directory, the directory of the
    manifest and the workbook directory [<outdir>/<workbook stem>] in place
    as directories. *)
Theorem main_leaves_directories `{Runtime} (args : Namespace) (fs fs' : filesystem) :
  main args fs = (Ok tt, fs') ->
  node_at fs' (path_of_str (arg_outdir args)) = Some Dir /\
  node_at fs' (path_parent (path_of_str (arg_manifest args))) = Some Dir /\
  node_at fs' (path_div (path_of_str (arg_outdir args))
                        (path_stem (path_of_str (arg_excel args)))) = Some Dir.
Proof.
  intros (Hout & Hmparent & Hwd & _)%main_Ok_dirs.
  repeat split; by apply dirs_exist_node.
Qed.

(** ** What [main] leaves in place *)

Section Kept.
Context `{Runtime}.

Lemma same_kind_refl (n : node) : same_kind n n = true.
Proof. by destruct n. Qed.

Lemma entries_kept_refl (fs : filesystem) : entries_kept fs fs.
Proof. intros k n Hk. exists n. split; [done | apply same_kind_refl]. Qed.

Lemma entries_kept_trans (fs1 fs2 fs3 : filesystem) :
  entries_kept fs1 fs2 -> entries_kept fs2 fs3 -> entries_kept fs1 fs3.
Proof.
  intros H12 H23 k n Hk.
  destruct (H12 k n Hk) as (n2 & Hk2 & Hs2). destruct (H23 k n2 Hk2) as (n3 & Hk3 & Hs3).
  exists n3. split; [done|]. by destruct n, n2, n3.
Qed.

Lemma entries_kept_insert (fs : filesystem) (k : pystr) (n : node) :
  (forall n0, fs !! k = Some n0 -> same_kind n0 n = true) ->
  entries_kept fs (<[k := n]> fs).
Proof.
  intros Hk k' n' Hk'. destruct (decide (k = k')) as [<-|Hne].
  - exists n. rewrite lookup_insert_eq. split; [done | by apply Hk].
  - exists n'. rewrite lookup_insert_ne by done. split; [done | apply same_kind_refl].
Qed.

Lemma keeps_entries_ret {A} (a : A) : keeps_entries (io_ret a).
Proof. intros fs r fs' [= _ <-]. apply entries_kept_refl. Qed.

Lemma keeps_entries_raise {A} (e : exn) : keeps_entries (@io_raise A e).
Proof. intros fs r fs' [= _ <-]. apply entries_kept_refl. Qed.

Lemma keeps_entries_bind {A B} (m : io A) (k : A -> io B) :
  keeps_entries m -> (forall a, keeps_entries (k a)) -> keeps_entries (io_bind m k).
Proof.
  intros Hm Hk fs r fs'. unfold io_bind.
  destruct (m fs) as [[a|e] fs1] eqn:Em.
  - intros Hrun. eapply entries_kept_trans; [by eapply Hm | by eapply Hk].
  - intros [= _ <-]. by eapply Hm.
Qed.

Lemma keeps_entries_read_only {A} (m : io A) :
  (forall fs fs' r, m fs = (r, fs') -> fs' = fs) -> keeps_entries m.
Proof. intros Hm fs r fs' Hrun. rewrite (Hm _ _ _ Hrun). apply entries_kept_refl. Qed.

Lemma mkdir_chain_keeps (a : pystr) (above todo : list pystr) :
  keeps_entries (mkdir_chain a above todo).
Proof.
  revert above. induction todo as [|c rest IH]; intros above fs r fs'; simpl.
  - intros [= _ <-]. apply entries_kept_refl.
  - destruct (fs !! as_posix (Path a (above ++ [c]))) as [[b|]|] eqn:E.
    + intros [= _ <-]. apply entries_kept_refl.
    + apply IH.
    + intros Hrun. eapply entries_kept_trans; [|by eapply IH].
      apply entries_kept_insert. intros n0 Hn0. congruence.
Qed.

Lemma write_bytes_keeps (p : path) (data : bytes) : keeps_entries (write_bytes p data).
Proof.
  intros fs [[]|e] fs' Hw.
  - pose proof (write_bytes_Ok_inv _ _ _ _ Hw) as [Hp _].
    apply write_bytes_Ok in Hw as (-> & Hparts & _).
    apply entries_kept_insert. intros n0 Hn0. unfold node_at in Hp.
    destruct (parts p); [done|]. destruct n0; [done | congruence].
  - apply write_bytes_Raise in Hw as ->. apply entries_kept_refl.
Qed.

Lemma write_json_keeps (p : path) (d : json) : keeps_entries (write_json p d).
Proof.
  unfold write_json, write_text. apply keeps_entries_bind; [apply write_bytes_keeps|].
  intros []. destruct (utf8_encode _); [apply write_bytes_keeps | apply keeps_entries_raise].
Qed.

Lemma export_loop_keeps (wd : path) (sheets : list sheet) (outs : list OutputEntry) :
  keeps_entries (export_loop wd sheets outs).
Proof.
  revert outs. induction sheets as [|sh rest IH]; intros outs; simpl.
  - apply keeps_entries_ret.
  - destruct (sheet_csv sh).
    2:{ destruct (sheet_partial sh); [|apply keeps_entries_raise].
        apply keeps_entries_bind; [apply write_bytes_keeps|]. intros [].
        apply keeps_entries_raise. }
    apply keeps_entries_bind; [apply write_bytes_keeps|]. intros [].
    apply keeps_entries_bind; [|intros digest; apply IH].
    apply keeps_entries_read_only, sha256_file_state.
Qed.

Lemma export_sheets_to_csv_keeps (excel_path outdir : path) :
  keeps_entries (export_sheets_to_csv excel_path outdir).
Proof.
  unfold export_sheets_to_csv.
  apply keeps_entries_bind; [apply keeps_entries_read_only, read_bytes_state|].
  intros data. destruct (excel_file data); [|apply keeps_entries_raise].
  apply keeps_entries_bind; [apply mkdir_chain_keeps|]. intros [].
  apply keeps_entries_bind; [apply export_loop_keeps|]. intros outs.
  apply keeps_entries_ret.
Qed.

Lemma main_keeps (args : Namespace) : keeps_entries (main args).
Proof.
  unfold main. cbv zeta.
  apply keeps_entries_bind; [by intros fs r fs' [= _ <-]; apply entries_kept_refl|].
  intros found. destruct (negb found); [apply keeps_entries_raise|].
  apply keeps_entries_bind; [apply mkdir_chain_keeps|]. intros [].
  apply keeps_entries_bind; [apply mkdir_chain_keeps|]. intros [].
  apply keeps_entries_bind; [apply keeps_entries_read_only, read_json_state|]. intros old.
  apply keeps_entries_bind; [apply keeps_entries_read_only, sha256_file_state|]. intros sha.
  apply keeps_entries_bind; [apply export_sheets_to_csv_keeps|]. intros outs.
  apply keeps_entries_bind; [by intros fs r fs' [= _ <-]; apply entries_kept_refl|].
  intros v. apply write_json_keeps.
Qed.

End Kept.

(** X20. [main] removes nothing: whether it completes or raises, every path
    that named a regular file still names a regular file afterwards, and
    every directory is still a directory. *)
Theorem main_removes_nothing `{Runtime} (args : Namespace) (fs fs' : filesystem)
    (r : result unit) (k : pystr) :
  main args fs = (r, fs') ->
  (fs !! k = Some Dir -> fs' !! k = Some Dir) /\
  (forall b, fs !! k = Some (File b) -> exists b', fs' !! k = Some (File b')).
Proof.
  intros Hrun. pose proof (main_keeps args _ _ _ Hrun k) as Hk. split.
  - intros Hd. destruct (Hk _ Hd) as ([b'|] & Hn & Hs); done.
  - intros b Hb. destruct (Hk _ Hb) as ([b'|] & Hn & Hs); [by exists b' | done].
Qed.

(** ** Runs

    The properties above at the concrete runs. *)

Section MoreRuns.
Import Scenario.
#[local] Existing Instance sample_runtime.

(** The sample reader on the three JSON literals, and the round trip through
    the sample printer. *)
Lemma sample_json_literals :
  json_loads (py "[true, false, null]") = Some (JArr [JBool true; JBool false; JNull]) /\
  reread (JArr [JBool true; JBool false; JNull])
    = Some (JArr [JBool true; JBool false; JNull]).
Proof. split; vm_compute; reflexivity. Qed.

Lemma sha256_file_digest_witness :
  file_content quarterly_fs (path_of_str (py "data/quarterly.xlsx"))
    = Some Sample.quarterly_xlsx /\
  sha256_file (path_of_str (py "data/quarterly.xlsx")) quarterly_fs
    = (Ok (Sha256.hexdigest Sample.quarterly_xlsx), quarterly_fs) /\
  length (Sha256.hexdigest Sample.quarterly_xlsx) = 64%nat /\
  Forall (fun c => is_lower_hex c = true) (Sha256.hexdigest Sample.quarterly_xlsx).
Proof.
  assert (file_content quarterly_fs (path_of_str (py "data/quarterly.xlsx"))
            = Some Sample.quarterly_xlsx) as Hdata by (vm_compute; reflexivity).
  split; [exact Hdata|].
  exact (sha256_file_digest (path_of_str (py "data/quarterly.xlsx")) quarterly_fs _ Hdata).
Defined.


Lemma write_then_read_json_witness :
  exists fs',
    write_json (path_of_str (py "generated/manifest.json")) previous broken_fs = (Ok tt, fs') /\
    reread previous = Some previous /\
    read_json (path_of_str (py "generated/manifest.json")) fs' = (Ok previous, fs').
Proof.
  assert (write_json (path_of_str (py "generated/manifest.json")) previous broken_fs =
          (Ok tt, snd (write_json (path_of_str (py "generated/manifest.json")) previous
                         broken_fs))) as Hrun.
  { apply run_eta. vm_compute. reflexivity. }
  assert (reread previous = Some previous) as Hround by (vm_compute; reflexivity).
  eexists. split; [exact Hrun|]. split; [exact Hround|].
  exact (write_then_read_json _ _ _ _ Hrun Hround).
Defined.


Lemma read_json_read_only_witness :
  node_at broken_fs (path_of_str (py "generated")) = Some Dir /\
  read_json (path_of_str (py "generated")) broken_fs = (Raise IsADirectoryError, broken_fs).
Proof.
  assert (node_at broken_fs (path_of_str (py "generated")) = Some Dir) as Hdir
    by (vm_compute; reflexivity).
  split; [exact Hdir|].
  destruct (read_json (path_of_str (py "generated")) broken_fs) as [r fs'] eqn:E.
  destruct (read_json_read_only _ _ _ _ E) as (-> & Hr). by rewrite (Hr Hdir).
Defined.

Lemma next_version_returns_iff_witness :
  (exists v, next_version previous (py "00") = Ok v) /\
  next_version (JArr []) (py "00") = Raise AttributeError.
Proof.
  split.
  - apply (proj1 (next_version_returns_iff previous (py "00"))).
    eexists. split; [reflexivity|]. split.
    + eexists. vm_compute. reflexivity.
    + right. eexists. vm_compute. reflexivity.
  - by apply (proj2 (next_version_returns_iff (JArr []) (py "00"))).
Defined.

Lemma build_manifest_inj_witness :
  build_manifest (path_of_str (py "data/quarterly.xlsx"))
    (path_of_str (py "generated/csv")) (path_of_str (py "generated/manifest.json"))
    [] (py "00") 7 =
  build_manifest (path_of_str (py "./data//quarterly.xlsx"))
    (path_of_str (py "generated/csv/")) (path_of_str (py "elsewhere/m.json"))
    [] (py "00") 7 /\
  as_posix (path_of_str (py "generated/csv")) = as_posix (path_of_str (py "generated/csv/")) /\
  as_posix (path_of_str (py "data/quarterly.xlsx"))
    = as_posix (path_of_str (py "./data//quarterly.xlsx")).
Proof.
  assert (build_manifest (path_of_str (py "data/quarterly.xlsx"))
            (path_of_str (py "generated/csv")) (path_of_str (py "generated/manifest.json"))
            [] (py "00") 7 =
          build_manifest (path_of_str (py "./data//quarterly.xlsx"))
            (path_of_str (py "generated/csv/")) (path_of_str (py "elsewhere/m.json"))
            [] (py "00") 7) as Heq by (vm_compute; reflexivity).
  split; [exact Heq|].
  destruct (build_manifest_inj _ _ _ _ _ _ _ _ _ _ _ _ Heq) as (_ & Ho & He & _ & _).
  by split.
Defined.

Lemma export_entries_match_files_witness :
  exists outs fs',
    export_sheets_to_csv (path_of_str (py "data/quarterly.xlsx"))
      (path_of_str (py "generated/csv")) quarterly_fs = (Ok outs, fs') /\
    List.map csv_path outs =
      [py "generated/csv/quarterly/Q1_Data.csv"; py "generated/csv/quarterly/Q2-Data.csv"] /\
    NoDup (List.map csv_path outs) /\
    Forall (fun o => exists csv, file_at fs' (csv_path o) = Some csv /\
                                 sha256 o = Sha256.hexdigest csv) outs.
Proof.
  assert (exists outs,
    fst (export_sheets_to_csv (path_of_str (py "data/quarterly.xlsx"))
           (path_of_str (py "generated/csv")) quarterly_fs) = Ok outs /\
    List.map csv_path outs =
      [py "generated/csv/quarterly/Q1_Data.csv"; py "generated/csv/quarterly/Q2-Data.csv"])
    as (outs & Houts & Hpaths).
  { eexists. split; vm_compute; reflexivity. }
  apply run_eta in Houts.
  assert (NoDup (List.map csv_path outs)) as Hnd.
  { rewrite Hpaths. apply (bool_decide_unpack _). vm_compute. exact I. }
  eexists _, _. split; [exact Houts|]. split; [exact Hpaths|]. split; [exact Hnd|].
  exact (export_entries_match_files _ _ _ _ _ Houts Hnd).
Defined.



Lemma main_manifest_contents_witness :
  exists fs',
    main quarterly_args quarterly_fs = (Ok tt, fs') /\
    exists data d b old,
      file_content quarterly_fs (path_of_str (arg_excel quarterly_args)) = Some data /\
      utf8_encode (json_dumps d ++ [NEWLINE]) = Some b /\
      file_content fs' (path_of_str (arg_manifest quarterly_args)) = Some b /\
      recorded_sha d = Sha256.hexdigest data /\
      Permutation (manifest_csv_paths d) (csv_targets quarterly_args quarterly_fs) /\
      match file_content quarterly_fs (path_of_str (arg_manifest quarterly_args)) with
      | Some _ =>
          stored_manifest quarterly_fs (path_of_str (arg_manifest quarterly_args)) = Some old
      | None => old = JObj []
      end /\
      next_version old (Sha256.hexdigest data) = Ok (recorded_version d).
Proof.
  assert (main quarterly_args quarterly_fs =
          (Ok tt, snd (main quarterly_args quarterly_fs))) as Hrun.
  { apply run_eta. vm_compute. reflexivity. }
  eexists. split; [exact Hrun|].
  exact (main_manifest_contents quarterly_args quarterly_fs _ Hrun).
Defined.

Lemma source_change_bumps_version_witness :
  exists fsA fs1 d2 fsB,
    new_manifest quarterly_args quarterly_fs = (Ok quarterly_manifest, fsA) /\
    main quarterly_args quarterly_fs = (Ok tt, fs1) /\
    reread quarterly_manifest = Some quarterly_manifest /\
    file_content (Reordered.revised fs1) (path_of_str (arg_manifest quarterly_args))
      = file_content fs1 (path_of_str (arg_manifest quarterly_args)) /\
    file_content (Reordered.revised fs1) (path_of_str (arg_excel quarterly_args))
      = Some Sample.quarterly_rev2_xlsx /\
    Sha256.hexdigest Sample.quarterly_rev2_xlsx <> recorded_sha quarterly_manifest /\
    new_manifest quarterly_args (Reordered.revised fs1) = (Ok d2, fsB) /\
    recorded_version quarterly_manifest = 1%Z /\
    recorded_version d2 = 2%Z /\
    recorded_sha d2 = Sha256.hexdigest Sample.quarterly_rev2_xlsx.
Proof.
  assert (new_manifest quarterly_args quarterly_fs =
          (Ok quarterly_manifest, snd (new_manifest quarterly_args quarterly_fs))) as H1.
  { apply run_eta. vm_compute. reflexivity. }
  assert (main quarterly_args quarterly_fs =
          (Ok tt, snd (main quarterly_args quarterly_fs))) as H2.
  { apply run_eta. vm_compute. reflexivity. }
  assert (reread quarterly_manifest = Some quarterly_manifest) as H3
    by (vm_compute; reflexivity).
  assert (file_content (Reordered.revised (snd (main quarterly_args quarterly_fs)))
            (path_of_str (arg_manifest quarterly_args))
          = file_content (snd (main quarterly_args quarterly_fs))
              (path_of_str (arg_manifest quarterly_args))) as H4
    by (vm_compute; reflexivity).
  assert (file_content (Reordered.revised (snd (main quarterly_args quarterly_fs)))
            (path_of_str (arg_excel quarterly_args))
          = Some Sample.quarterly_rev2_xlsx) as H5
    by (vm_compute; reflexivity).
  assert (Sha256.hexdigest Sample.quarterly_rev2_xlsx <> recorded_sha quarterly_manifest)
    as H6.
  { apply (bool_decide_unpack _). vm_compute. exact I. }
  assert (exists d2,
    fst (new_manifest quarterly_args
           (Reordered.revised (snd (main quarterly_args quarterly_fs)))) = Ok d2)
    as (d2 & H7).
  { eexists. vm_compute. reflexivity. }
  apply run_eta in H7.
  destruct (source_change_bumps_version quarterly_args quarterly_fs _ _ _ _
              quarterly_manifest d2 _ H1 H2 H3 H4 H5 H6 H7) as [Hv Hs].
  eexists _, _, d2, _.
  split; [exact H1|]. split; [exact H2|]. split; [exact H3|]. split; [exact H4|].
  split; [exact H5|]. split; [exact H6|]. split; [exact H7|].
  split; [reflexivity|]. split; [rewrite Hv; reflexivity | exact Hs].
Defined.

Lemma main_leaves_directories_witness :
  exists fs',
    main quarterly_args quarterly_fs = (Ok tt, fs') /\
    node_at quarterly_fs (path_of_str (py "generated/csv")) = None /\
    node_at fs' (path_of_str (py "generated/csv")) = Some Dir /\
    node_at fs' (path_of_str (py "generated")) = Some Dir /\
    node_at fs' (path_of_str (py "generated/csv/quarterly")) = Some Dir.
Proof.
  assert (main quarterly_args quarterly_fs =
          (Ok tt, snd (main quarterly_args quarterly_fs))) as Hrun.
  { apply run_eta. vm_compute. reflexivity. }
  eexists. split; [exact Hrun|]. split; [vm_compute; reflexivity|].
  exact (main_leaves_directories quarterly_args quarterly_fs _ Hrun).
Defined.

Lemma main_removes_nothing_witness :
  exists fs',
    main broken_args broken_fs = (Raise SheetExportError, fs') /\
    broken_fs !! py "generated/manifest.json" = Some (File old_manifest_text) /\
    exists b', fs' !! py "generated/manifest.json" = Some (File b').
Proof.
  assert (main broken_args broken_fs =
          (Raise SheetExportError, snd (main broken_args broken_fs))) as Hrun.
  { apply run_eta. vm_compute. reflexivity. }
  assert (broken_fs !! py "generated/manifest.json" = Some (File old_manifest_text)) as Hfile
    by (vm_compute; reflexivity).
  eexists. split; [exact Hrun|]. split; [exact Hfile|].
  exact (proj2 (main_removes_nothing broken_args broken_fs _ _
                  (py "generated/manifest.json") Hrun) _ Hfile).
Defined.

End MoreRuns.

Section ReorderedRuns.
Import Scenario.
#[local] Existing Instance reordered_runtime.


Lemma export_result_order_independent_witness :
  exists xls outs1 outs2 fs1' fs2',
    excel_file Sample.quarterly_xlsx = Some xls /\
    excel_file Reordered.quarterly_swapped_xlsx = Some (rev xls) /\
    List.map sheet_title xls = [py "Q1 Data"; py "Q2-Data"] /\
    export_sheets_to_csv (path_of_str (py "data/quarterly.xlsx"))
      (path_of_str (py "generated/csv")) quarterly_fs = (Ok outs1, fs1') /\
    export_sheets_to_csv (path_of_str (py "data/quarterly.xlsx"))
      (path_of_str (py "generated/csv")) Reordered.swapped_fs = (Ok outs2, fs2') /\
    outs1 = outs2.
Proof.
  assert (exists xls,
    excel_file Sample.quarterly_xlsx = Some xls /\
    excel_file Reordered.quarterly_swapped_xlsx = Some (rev xls) /\
    List.map sheet_title xls = [py "Q1 Data"; py "Q2-Data"] /\
    List.map (fun sh => safe_filename (sheet_title sh)) xls = [py "Q1_Data"; py "Q2-Data"])
    as (xls & Hx1 & Hx2 & Htitles & Hstems).
  { eexists. repeat split; vm_compute; reflexivity. }
  assert (file_content quarterly_fs (path_of_str (py "data/quarterly.xlsx"))
            = Some Sample.quarterly_xlsx) as Hd1 by (vm_compute; reflexivity).
  assert (file_content Reordered.swapped_fs (path_of_str (py "data/quarterly.xlsx"))
            = Some Reordered.quarterly_swapped_xlsx) as Hd2 by (vm_compute; reflexivity).
  assert (NoDup (List.map (fun sh => safe_filename (sheet_title sh)) xls)) as Hnd.
  { rewrite Hstems. apply (bool_decide_unpack _). vm_compute. exact I. }
  assert (exists outs1,
    fst (export_sheets_to_csv (path_of_str (py "data/quarterly.xlsx"))
           (path_of_str (py "generated/csv")) quarterly_fs) = Ok outs1) as (outs1 & H1).
  { eexists. vm_compute. reflexivity. }
  assert (exists outs2,
    fst (export_sheets_to_csv (path_of_str (py "data/quarterly.xlsx"))
           (path_of_str (py "generated/csv")) Reordered.swapped_fs) = Ok outs2) as (outs2 & H2).
  { eexists. vm_compute. reflexivity. }
  apply run_eta in H1. apply run_eta in H2.
  exists xls, outs1, outs2. eexists _, _.
  split; [exact Hx1|]. split; [exact Hx2|]. split; [exact Htitles|].
  split; [exact H1|]. split; [exact H2|].
  exact (export_result_order_independent _ _ _ _ _ _ _ _ _ _ _ _
           Hd1 Hx1 Hd2 Hx2 (Permutation_rev xls) Hnd H1 H2).
Defined.

End ReorderedRuns.
